(** * BrewCap: the SMC client ([smc.c]) and the diagnostic tool ([smc_tool.c])

    A shallow embedding of the two C translation units of BrewCap that talk
    to the Apple System Management Controller, and the properties of the
    specification checked against them.

    Conventions of the embedding:
    - unsigned C integers ([uint8_t], [uint32_t], [UInt32], [io_connect_t])
      are [N], with the wrap-around of the C type written out ([uint32]);
      signed ones ([int], [kern_return_t]) are [Z];
    - a [char] buffer is a [string]: the characters stored before the final
      terminator; a [uint8_t] buffer is a [list byte];
    - the IOKit and CoreFoundation entry points are an environment [Env]
      whose answers may depend on everything that happened before; every
      call to it is appended to the trace of the [World];
    - format strings are spelled as in the source. *)

From Stdlib Require Import ZArith NArith List String Ascii Bool Lia.
From Stdlib.Strings Require Import Byte.
Import ListNotations.

(** ** C integer and character conversions *)

Module CTypes.

Definition uint8_t := N.
Definition uint16_t := N.
Definition uint32_t := N.
Definition int := Z.

(** Reduction of a mathematical value to [uint32_t]. *)
Definition uint32 (n : N) : uint32_t := (n mod 2 ^ 32)%N.

(** Reduction of a mathematical value to a 32-bit two's complement [int].
    C leaves signed overflow undefined; this is what the compilers of the
    program's targets produce. *)
Definition wrap_int (z : Z) : int := ((z + 2 ^ 31) mod 2 ^ 32 - 2 ^ 31)%Z.

(** [(unsigned int)z] and the conversion done by [total += z]. *)
Definition uint32_of_int (z : Z) : uint32_t := Z.to_N (z mod 2 ^ 32).

(** [(unsigned char)c] and [(uint8_t)c]. *)
Definition uchar_of (c : ascii) : uint8_t := N_of_ascii c.

(** The value of a plain [char] in an expression: [char] is signed on the
    program's targets. *)
Definition schar_of (c : ascii) : int :=
  let n := Z.of_N (N_of_ascii c) in
  if (n <? 128)%Z then n else (n - 256)%Z.

(** [(char)n]: the low eight bits. *)
Definition char_of (n : N) : ascii := ascii_of_N (n mod 256).

(** [x << sh] at type [int]. *)
Definition int_shl (x : int) (sh : Z) : int := wrap_int (Z.shiftl x sh).

(** [x << sh] at type [unsigned int]. *)
Definition uint_shl (x : uint32_t) (sh : Z) : uint32_t :=
  uint32 (N.shiftl x (Z.to_N sh)).

(** [s[i]] for a [char] buffer: the characters of [s], then the
    terminator. The buffers of the program that are read past their
    terminator ([UInt32Char_t key = {0}], filled by [strncpy]) are zero
    there, so the model reads zero at every later index too. *)
Definition char_at (s : string) (i : nat) : ascii :=
  match String.get i s with
  | Some c => c
  | None => zero
  end.

(** [strlen]: the characters before the first NUL. *)
Fixpoint strlen (s : string) : nat :=
  match s with
  | EmptyString => O
  | String c s' => if (N_of_ascii c =? 0)%N then O else S (strlen s')
  end.

(** [memcpy(dst, src, n)] seen from [dst]: the memory at [dst] afterwards.
    The first [n] bytes come from [src], the rest of [dst] is kept. C
    requires both objects to hold [n] bytes. *)
Definition memcpy {A : Type} (dst src : list A) (n : nat) : list A :=
  firstn n src ++ skipn n dst.

(** The byte read at index [i] of a [char] buffer, as
    [(unsigned char)s[i]]. *)
Definition uc (s : string) (i : nat) : N := uchar_of (char_at s i).

End CTypes.
Import CTypes.

(** ** Binary codec *)

(** [four_char_code] of [smc.c]. *)
Module Smc_codec.

(** The loop [for (i = 0; i < 4 && key[i]; i++)], with [fuel] the number
    of indices left below 4. *)
Fixpoint four_char_code_loop (key : string) (fuel i : nat)
         (result : uint32_t) : uint32_t :=
  match fuel with
  | O => result
  | S fuel' =>
      if (uchar_of (char_at key i) =? 0)%N then result
      else four_char_code_loop key fuel' (S i)
             (uint32 (N.lor (N.shiftl result 8) (uchar_of (char_at key i))))
  end.

Definition four_char_code (key : string) : uint32_t :=
  four_char_code_loop key 4 0 0%N.

End Smc_codec.

(** [_strtoul] and [_ultostr] of [smc_tool.c]. *)
Module Tool_codec.

(** The loop [for (i = 0; i < size; i++)], with [fuel] the number of
    indices left below [size]. *)
Fixpoint _strtoul_loop (str : string) (size base : int) (fuel i : nat)
         (total : uint32_t) : uint32_t :=
  match fuel with
  | O => total
  | S fuel' =>
      let sh := ((size - 1 - Z.of_nat i) * 8)%Z in
      let term :=
        if (base =? 16)%Z
        then uint32_of_int (int_shl (Z.of_N (uchar_of (char_at str i))) sh)
        else uint_shl (uint32_of_int (schar_of (char_at str i) - 48)) sh in
      _strtoul_loop str size base fuel' (S i) (uint32 (total + term))
  end.

Definition _strtoul (str : string) (size base : int) : uint32_t :=
  _strtoul_loop str size base (Z.to_nat size) 0 0%N.
#[global] Arguments _strtoul str%_string size%_Z base%_Z.

(** [_ultostr] fills [str[0..3]] and terminates the buffer at [str[4]]. *)
Definition _ultostr (val : uint32_t) : string :=
  String (char_of (N.shiftr val 24))
    (String (char_of (N.shiftr val 16))
       (String (char_of (N.shiftr val 8))
          (String (char_of val) EmptyString))).

End Tool_codec.

(** ** The IOKit environment *)

Module IOKit.

Definition kern_return_t := int.
Definition KERN_SUCCESS : kern_return_t := 0%Z.
Definition kIOReturnSuccess : kern_return_t := 0%Z.
(** [kIOReturnError] is [0xe00002bc], a negative [int]. *)
Definition kIOReturnError : kern_return_t := wrap_int 0xe00002bc.

Definition io_object_t := N.
Definition io_service_t := io_object_t.
Definition io_connect_t := io_object_t.
Definition IO_OBJECT_NULL : io_object_t := 0%N.

(** The CoreFoundation values the program builds. They are plain values
    here: [CFNumberCreate], [CFStringCreateWithCString] and [CFRelease]
    only manage their storage. *)
Inductive CFTypeRef : Type :=
| CFBoolean (b : bool)
| CFNumberSInt32 (n : int).

Definition kCFBooleanTrue : CFTypeRef := CFBoolean true.
Definition kCFBooleanFalse : CFTypeRef := CFBoolean false.

Inductive FILE : Type := stdout | stderr.

(** An argument of [fprintf]: [%s], [%x] or [%u]. *)
Inductive fmt_arg : Type :=
| ArgS (s : string)
| ArgX (n : uint32_t)
| ArgU (n : uint32_t).

Section WithParamStruct.

(** The structure exchanged with the controller; each translation unit
    declares its own. *)
Context {P : Type}.

(** What the process did to the outside, with the answer it got. *)
Inductive Event : Type :=
| EvGetMatchingService (name : string) (service : io_service_t)
| EvSetCFProperty (service : io_service_t) (key : string)
    (value : CFTypeRef) (kr : kern_return_t)
| EvObjectRelease (obj : io_object_t)
| EvServiceOpen (service : io_service_t) (kr : kern_return_t)
    (conn : io_connect_t)
| EvServiceClose (conn : io_connect_t) (kr : kern_return_t)
| EvCallStructMethod (conn : io_connect_t) (selector : uint32_t)
    (input : P) (kr : kern_return_t) (output : P)
| EvPrintf (stream : FILE) (format : string) (args : list fmt_arg).

(** The collaborators. An answer is a function of the request and of
    the history, so a stub can count calls, fail the n-th one, or
    remember what was written. *)
Record Env : Type := {
  env_get_matching_service : list Event -> string -> io_service_t;
  env_set_cf_property :
    list Event -> io_service_t -> string -> CFTypeRef -> kern_return_t;
  env_service_open :
    list Event -> io_service_t -> io_connect_t ->
    kern_return_t * io_connect_t;
  env_service_close : list Event -> io_connect_t -> kern_return_t;
  env_call_struct_method :
    list Event -> io_connect_t -> uint32_t -> P -> kern_return_t * P
}.

(** The state of the process: its one global, the connection handle,
    and the trace so far (oldest event first). *)
Record World : Type := {
  handle : io_connect_t;
  trace : list Event
}.

Definition M (A : Type) : Type := World -> A * World.

Definition ret {A} (a : A) : M A := fun w => (a, w).

Definition bind {A B} (m : M A) (k : A -> M B) : M B :=
  fun w => let (a, w') := m w in k a w'.

Definition log (e : Event) : M unit :=
  fun w => (tt, {| handle := handle w; trace := trace w ++ [e] |}).

Definition get_handle : M io_connect_t := fun w => (handle w, w).

Definition set_handle (c : io_connect_t) : M unit :=
  fun w => (tt, {| handle := c; trace := trace w |}).

Definition history : M (list Event) := fun w => (trace w, w).

Variable E : Env.

Definition IOServiceGetMatchingService (name : string) : M io_service_t :=
  bind history (fun h =>
  let service := env_get_matching_service E h name in
  bind (log (EvGetMatchingService name service)) (fun _ => ret service)).

Definition IORegistryEntrySetCFProperty (service : io_service_t)
           (key : string) (value : CFTypeRef) : M kern_return_t :=
  bind history (fun h =>
  let kr := env_set_cf_property E h service key value in
  bind (log (EvSetCFProperty service key value kr)) (fun _ => ret kr)).

Definition IOObjectRelease (obj : io_object_t) : M unit :=
  log (EvObjectRelease obj).

(** [IOServiceOpen(service, mach_task_self(), 0, &conn)]: the answer
    carries the content of [conn] afterwards. *)
Definition IOServiceOpen (service : io_service_t) (conn : io_connect_t)
  : M (kern_return_t * io_connect_t) :=
  bind history (fun h =>
  let r := env_service_open E h service conn in
  bind (log (EvServiceOpen service (fst r) (snd r))) (fun _ => ret r)).

Definition IOServiceClose (conn : io_connect_t) : M kern_return_t :=
  bind history (fun h =>
  let kr := env_service_close E h conn in
  bind (log (EvServiceClose conn kr)) (fun _ => ret kr)).

Definition IOConnectCallStructMethod (conn : io_connect_t)
           (selector : uint32_t) (input : P) : M (kern_return_t * P) :=
  bind history (fun h =>
  let r := env_call_struct_method E h conn selector input in
  bind (log (EvCallStructMethod conn selector input (fst r) (snd r)))
       (fun _ => ret r)).

Definition fprintf (stream : FILE) (format : string)
           (args : list fmt_arg) : M unit :=
  log (EvPrintf stream format args).

(** The requests sent through [IOConnectCallStructMethod], in order. *)
Fixpoint struct_calls (t : list Event) : list P :=
  match t with
  | [] => []
  | EvCallStructMethod _ _ input _ _ :: t' => input :: struct_calls t'
  | _ :: t' => struct_calls t'
  end.

(** The service classes looked up through [IOServiceGetMatchingService],
    in order. *)
Fixpoint lookups (t : list Event) : list string :=
  match t with
  | [] => []
  | EvGetMatchingService name _ :: t' => name :: lookups t'
  | _ :: t' => lookups t'
  end.

(** The connections released through [IOServiceClose], in order. *)
Fixpoint closes (t : list Event) : list io_connect_t :=
  match t with
  | [] => []
  | EvServiceClose conn _ :: t' => conn :: closes t'
  | _ :: t' => closes t'
  end.

(** The events of a trace that [pick] selects, in order. *)
Fixpoint collect {A : Type} (pick : Event -> option A) (t : list Event)
  : list A :=
  match t with
  | [] => []
  | e :: t' =>
      match pick e with
      | Some a => a :: collect pick t'
      | None => collect pick t'
      end
  end.

(** The property writes made through [IORegistryEntrySetCFProperty]:
    service, property name and value. *)
Definition property_writes (t : list Event)
  : list (io_service_t * string * CFTypeRef) :=
  collect (fun e => match e with
                    | EvSetCFProperty service key value _ =>
                        Some (service, key, value)
                    | _ => None
                    end) t.

(** The objects handed to [IOObjectRelease]. *)
Definition releases (t : list Event) : list io_object_t :=
  collect (fun e => match e with
                    | EvObjectRelease obj => Some obj
                    | _ => None
                    end) t.

(** The services handed to [IOServiceOpen]. *)
Definition opens (t : list Event) : list io_service_t :=
  collect (fun e => match e with
                    | EvServiceOpen service _ _ => Some service
                    | _ => None
                    end) t.

(** Connection and selector of every [IOConnectCallStructMethod]. *)
Definition call_targets (t : list Event)
  : list (io_connect_t * uint32_t) :=
  collect (fun e => match e with
                    | EvCallStructMethod conn selector _ _ _ =>
                        Some (conn, selector)
                    | _ => None
                    end) t.

(** A computation that leaves the connection alone: the handle is the
    same afterwards, and nothing was opened or closed. *)
Definition keeps_connection {A : Type} (m : M A) : Prop :=
  forall w : World,
    handle (snd (m w)) = handle w
    /\ opens (trace (snd (m w))) = opens (trace w)
    /\ closes (trace (snd (m w))) = closes (trace w).

(** What was printed on [stream]: format and arguments of every call. *)
Definition printed (stream : FILE) (t : list Event)
  : list (string * list fmt_arg) :=
  collect (fun e => match e, stream with
                    | EvPrintf stdout format args, stdout =>
                        Some (format, args)
                    | EvPrintf stderr format args, stderr =>
                        Some (format, args)
                    | _, _ => None
                    end) t.

End WithParamStruct.

Arguments Event : clear implicits.
Arguments Env : clear implicits.
Arguments World : clear implicits.

Declare Scope smc_scope.
Delimit Scope smc_scope with smc.
Notation "x <- c1 ;; c2" := (bind c1 (fun x => c2))
  (at level 61, c1 at next level, right associativity) : smc_scope.
Notation "' pat <- c1 ;; c2" :=
  (bind c1 (fun x => match x with pat => c2 end))
  (at level 61, pat pattern, c1 at next level, right associativity)
  : smc_scope.
Notation "c1 ;; c2" := (bind c1 (fun _ => c2))
  (at level 61, right associativity) : smc_scope.

End IOKit.
Import IOKit.

(** ** [smc.c] *)

Module Smc.

Import Smc_codec.
Local Open Scope N_scope.
Local Open Scope smc_scope.
Local Open Scope string_scope.

Definition KERNEL_INDEX_SMC : uint32_t := 2%N.
Definition SMC_CMD_READ_BYTES : uint8_t := 5%N.
Definition SMC_CMD_WRITE_BYTES : uint8_t := 6%N.
Definition SMC_CMD_READ_KEYINFO : uint8_t := 9%N.

Record SMCKeyVersion : Type := {
  major : uint8_t;
  minor : uint8_t;
  build : uint8_t;
  reserved : uint8_t;
  release : uint16_t
}.

Record SMCPLimitData : Type := {
  version : uint16_t;
  length : uint16_t;
  cpuPLimit : uint32_t;
  gpuPLimit : uint32_t;
  memPLimit : uint32_t
}.

Record SMCKeyInfoData : Type := {
  dataSize : uint32_t;
  dataType : uint32_t;
  dataAttributes : uint8_t
}.

Record SMCParamStruct : Type := {
  key : uint32_t;
  vers : SMCKeyVersion;
  pLimitData : SMCPLimitData;
  keyInfo : SMCKeyInfoData;
  padding : uint16_t;
  result : uint8_t;
  status : uint8_t;
  data8 : uint8_t;
  data32 : uint32_t;
  bytes : list byte
}.

(** [memset(&s, 0, sizeof(s))]. *)
Definition zero_keyInfo : SMCKeyInfoData :=
  {| dataSize := 0; dataType := 0; dataAttributes := 0 |}.

Definition zero_struct : SMCParamStruct :=
  {| key := 0;
     vers := {| major := 0; minor := 0; build := 0; reserved := 0;
                release := 0 |};
     pLimitData := {| version := 0; length := 0; cpuPLimit := 0;
                      gpuPLimit := 0; memPLimit := 0 |};
     keyInfo := zero_keyInfo;
     padding := 0; result := 0; status := 0; data8 := 0; data32 := 0;
     bytes := repeat x00 32 |}.

(** Assignments to the fields the program writes. *)
Definition set_key (k : uint32_t) (s : SMCParamStruct) : SMCParamStruct :=
  {| key := k; vers := vers s; pLimitData := pLimitData s;
     keyInfo := keyInfo s; padding := padding s; result := result s;
     status := status s; data8 := data8 s; data32 := data32 s;
     bytes := bytes s |}.

Definition set_keyInfo (i : SMCKeyInfoData) (s : SMCParamStruct)
  : SMCParamStruct :=
  {| key := key s; vers := vers s; pLimitData := pLimitData s;
     keyInfo := i; padding := padding s; result := result s;
     status := status s; data8 := data8 s; data32 := data32 s;
     bytes := bytes s |}.

Definition set_data8 (c : uint8_t) (s : SMCParamStruct) : SMCParamStruct :=
  {| key := key s; vers := vers s; pLimitData := pLimitData s;
     keyInfo := keyInfo s; padding := padding s; result := result s;
     status := status s; data8 := c; data32 := data32 s;
     bytes := bytes s |}.

Definition set_bytes (b : list byte) (s : SMCParamStruct) : SMCParamStruct :=
  {| key := key s; vers := vers s; pLimitData := pLimitData s;
     keyInfo := keyInfo s; padding := padding s; result := result s;
     status := status s; data8 := data8 s; data32 := data32 s;
     bytes := b |}.

Abbreviation g_smc_conn := (@handle SMCParamStruct).
Abbreviation World := (IOKit.World SMCParamStruct).
Abbreviation Env := (IOKit.Env SMCParamStruct).
Abbreviation Event := (IOKit.Event SMCParamStruct).

Section Program.

Variable E : Env.

(** *** Method 1: registry property writes on [AppleSmartBattery] *)

Definition get_battery_service : M io_service_t :=
  IOServiceGetMatchingService E "AppleSmartBattery".

Definition set_battery_property (key : string) (value : CFTypeRef)
  : M int :=
  service <- get_battery_service ;;
  if (service =? IO_OBJECT_NULL)%N then
    fprintf stderr "battery: AppleSmartBattery service not found\n" [] ;;
    ret (-1)%Z
  else
    result <- IORegistryEntrySetCFProperty E service key value ;;
    IOObjectRelease service ;;
    if negb (result =? KERN_SUCCESS)%Z then
      fprintf stderr "battery: set property '%s' failed: 0x%x\n"
              [ArgS key; ArgX (uint32_of_int result)] ;;
      ret (-1)%Z
    else
      fprintf stdout "battery: set property '%s' succeeded\n"
              [ArgS key] ;;
      ret 0%Z.

(** *** Method 2: direct SMC access *)

Definition smc_call (in_struct : SMCParamStruct)
  : M (kern_return_t * SMCParamStruct) :=
  conn <- get_handle ;;
  IOConnectCallStructMethod E conn KERNEL_INDEX_SMC in_struct.

(** [info] is the content of [*info] before the call; the function
    returns its content afterwards next to the status. *)
Definition smc_read_key_info (key : uint32_t) (info : SMCKeyInfoData)
  : M (int * SMCKeyInfoData) :=
  let in_s := zero_struct in
  let in_s := set_key key in_s in
  let in_s := set_data8 SMC_CMD_READ_KEYINFO in_s in
  '(result, out_s) <- smc_call in_s ;;
  if negb (result =? KERN_SUCCESS)%Z then
    fprintf stderr "smc: read_key_info failed: 0x%x\n"
            [ArgX (uint32_of_int result)] ;;
    ret ((-1)%Z, info)
  else
    ret (0%Z, keyInfo out_s).

(** *** Public API *)

Definition smc_open : M int :=
  service <- IOServiceGetMatchingService E "AppleSMC" ;;
  if (service =? IO_OBJECT_NULL)%N then
    fprintf stderr "smc: AppleSMC service not found\n" [] ;;
    ret (-1)%Z
  else
    conn <- get_handle ;;
    '(result, conn') <- IOServiceOpen E service conn ;;
    set_handle conn' ;;
    IOObjectRelease service ;;
    if negb (result =? KERN_SUCCESS)%Z then
      fprintf stderr "smc: IOServiceOpen failed: 0x%x\n"
              [ArgX (uint32_of_int result)] ;;
      ret (-1)%Z
    else
      ret 0%Z.

Definition smc_close : M unit :=
  conn <- get_handle ;;
  if negb (conn =? 0)%N then
    IOServiceClose E conn ;;
    set_handle 0%N
  else
    ret tt.

(** The local [SMCKeyInfoData info;] of the two functions below is not
    initialised in C and is read only after [smc_read_key_info] has
    filled it; the model starts it at zero. *)

(** [out_bytes] and [out_size] are the contents of the caller's objects
    before the call; the result carries them as they are afterwards. *)
Definition smc_read_key (key : string) (out_bytes : list byte)
           (out_size : uint32_t) : M (int * list byte * uint32_t) :=
  let k := four_char_code key in
  '(r, info) <- smc_read_key_info k zero_keyInfo ;;
  if negb (r =? 0)%Z then ret ((-1)%Z, out_bytes, out_size)
  else
    let in_s := zero_struct in
    let in_s := set_key k in_s in
    let in_s := set_keyInfo info in_s in
    let in_s := set_data8 SMC_CMD_READ_BYTES in_s in
    '(result, out_s) <- smc_call in_s ;;
    if negb (result =? KERN_SUCCESS)%Z then
      ret ((-1)%Z, out_bytes, out_size)
    else
      let size := dataSize info in
      let size := if (32 <? size)%N then 32%N else size in
      let out_bytes := memcpy out_bytes (bytes out_s) (N.to_nat size) in
      ret (0%Z, out_bytes, size).

Definition smc_write_key (key : string) (bytes : list byte)
           (size : uint32_t) : M int :=
  let k := four_char_code key in
  '(r, info) <- smc_read_key_info k zero_keyInfo ;;
  if negb (r =? 0)%Z then ret (-1)%Z
  else
    let in_s := zero_struct in
    let in_s := set_key k in_s in
    let in_s := set_keyInfo info in_s in
    let in_s := set_data8 SMC_CMD_WRITE_BYTES in_s in
    let size := if (32 <? size)%N then 32%N else size in
    let in_s :=
      set_bytes (memcpy (Smc.bytes in_s) bytes (N.to_nat size)) in_s in
    '(result, out_s) <- smc_call in_s ;;
    if negb (result =? KERN_SUCCESS)%Z then
      fprintf stderr "smc: write_key '%s' failed: 0x%x\n"
              [ArgS key; ArgX (uint32_of_int result)] ;;
      ret (-1)%Z
    else
      fprintf stdout "smc: write_key '%s' succeeded\n" [ArgS key] ;;
      ret 0%Z.

(** *** Charging control *)

Definition smc_disable_charging : M int :=
  let success := 0%Z in
  fprintf stdout "Trying IORegistry ChargeInhibit...\n" [] ;;
  r <- set_battery_property "ChargeInhibit" kCFBooleanTrue ;;
  let success := if (r =? 0)%Z then 1%Z else success in
  let zero := 0%Z in
  let cfZero := CFNumberSInt32 zero in
  r <- set_battery_property "ChargeRate" cfZero ;;
  let success := if (r =? 0)%Z then 1%Z else success in
  fprintf stdout "Trying SMC CH0B...\n" [] ;;
  let val := x02 in
  r <- smc_write_key "CH0B" [val] 1 ;;
  let success := if (r =? 0)%Z then 1%Z else success in
  let val_i := x01 in
  r <- smc_write_key "CH0I" [val_i] 1 ;;
  let success := if (r =? 0)%Z then 1%Z else success in
  ret (if negb (success =? 0)%Z then 0%Z else (-1)%Z).

Definition smc_enable_charging : M int :=
  let success := 0%Z in
  r <- set_battery_property "ChargeInhibit" kCFBooleanFalse ;;
  let success := if (r =? 0)%Z then 1%Z else success in
  let negOne := (-1)%Z in
  let cfNeg := CFNumberSInt32 negOne in
  r <- set_battery_property "ChargeRate" cfNeg ;;
  let success := if (r =? 0)%Z then 1%Z else success in
  let val := x00 in
  r <- smc_write_key "CH0B" [val] 1 ;;
  let success := if (r =? 0)%Z then 1%Z else success in
  let val_i := x00 in
  r <- smc_write_key "CH0I" [val_i] 1 ;;
  let success := if (r =? 0)%Z then 1%Z else success in
  ret (if negb (success =? 0)%Z then 0%Z else (-1)%Z).

Definition smc_set_bclm (percentage : byte) : M int :=
  let val := Z.of_N (Byte.to_N percentage) in
  let cfVal := CFNumberSInt32 val in
  result <- set_battery_property "ChargeCapacity" cfVal ;;
  if (result =? 0)%Z then ret 0%Z
  else smc_write_key "BCLM" [percentage] 1.

(** [out_percentage] is the memory at the caller's pointer before the
    call; the result carries it as it is afterwards. The [size] that
    [smc_read_key] reports stays in a local. *)
Definition smc_get_bclm (out_percentage : list byte)
  : M (int * list byte) :=
  let size := 0%N in
  '(r, out_percentage, size) <- smc_read_key "BCLM" out_percentage size ;;
  ret (r, out_percentage).

End Program.

Arguments smc_read_key E key%_string out_bytes out_size%_N.
Arguments smc_write_key E key%_string bytes size%_N.

(** The three requests of the key access protocol, as the functions above
    build them. *)
Definition keyinfo_request (k : uint32_t) : SMCParamStruct :=
  set_data8 SMC_CMD_READ_KEYINFO (set_key k zero_struct).

Definition read_request (k : uint32_t) (info : SMCKeyInfoData)
  : SMCParamStruct :=
  set_data8 SMC_CMD_READ_BYTES (set_keyInfo info (set_key k zero_struct)).

Definition write_request (k : uint32_t) (info : SMCKeyInfoData)
           (bytes : list byte) (size : uint32_t) : SMCParamStruct :=
  let size := if (32 <? size)%N then 32%N else size in
  set_bytes (memcpy (repeat x00 32) bytes (N.to_nat size))
    (set_data8 SMC_CMD_WRITE_BYTES (set_keyInfo info (set_key k zero_struct))).

(** What the environment answers to [request] in world [w], and the world
    after that exchange. *)
Definition answer (E : Env) (w : World) (request : SMCParamStruct)
  : kern_return_t * SMCParamStruct :=
  env_call_struct_method E (trace w) (g_smc_conn w) KERNEL_INDEX_SMC request.

Definition exchanged (E : Env) (w : World) (request : SMCParamStruct)
  : World :=
  {| handle := g_smc_conn w;
     trace := trace w ++
       [EvCallStructMethod (g_smc_conn w) KERNEL_INDEX_SMC request
          (fst (answer E w request)) (snd (answer E w request))] |}.

(** The command bytes of the requests sent to the controller. *)
Definition commands (t : list Event) : list uint8_t :=
  map data8 (struct_calls t).

(** The four methods of [smc_disable_charging] run one after the other,
    each in the world the previous one left, whatever their outcomes: the
    four statuses and the final world. *)
Definition disable_attempts (E : Env) (w : World)
  : (int * int * int * int) * World :=
  let w0 := snd (fprintf stdout "Trying IORegistry ChargeInhibit...\n" [] w) in
  let a1 := set_battery_property E "ChargeInhibit" kCFBooleanTrue w0 in
  let a2 :=
    set_battery_property E "ChargeRate" (CFNumberSInt32 0%Z) (snd a1) in
  let w2 := snd (fprintf stdout "Trying SMC CH0B...\n" [] (snd a2)) in
  let a3 := smc_write_key E "CH0B" [x02] 1 w2 in
  let a4 := smc_write_key E "CH0I" [x01] 1 (snd a3) in
  ((fst a1, fst a2, fst a3, fst a4), snd a4).

(** Success of a status, as the program tests it. *)
Definition succeeded (r : int) : bool := (r =? 0)%Z.

(** The write requests of a trace: key and first payload byte. *)
Definition written (t : list Event) : list (uint32_t * list byte) :=
  map (fun r => (Smc.key r, firstn 1 (Smc.bytes r)))
      (filter (fun r => (data8 r =? SMC_CMD_WRITE_BYTES)%N) (struct_calls t)).

(** Everything a trace wrote, registry and controller together and in the
    order it happened: a property write with its service, name and value,
    or a write request with its key and first payload byte. *)
Definition all_writes (t : list Event)
  : list (io_service_t * string * CFTypeRef + uint32_t * list byte) :=
  collect (fun e => match e with
                    | EvSetCFProperty service key value _ =>
                        Some (inl (service, key, value))
                    | EvCallStructMethod _ _ input _ _ =>
                        if (data8 input =? SMC_CMD_WRITE_BYTES)%N
                        then Some (inr (Smc.key input,
                                        firstn 1 (Smc.bytes input)))
                        else None
                    | _ => None
                    end) t.

(** The four methods of [smc_enable_charging] run one after the other,
    each in the world the previous one left, whatever their outcomes. *)
Definition enable_attempts (E : Env) (w : World)
  : (int * int * int * int) * World :=
  let a1 := set_battery_property E "ChargeInhibit" kCFBooleanFalse w in
  let a2 :=
    set_battery_property E "ChargeRate" (CFNumberSInt32 (-1)%Z) (snd a1) in
  let a3 := smc_write_key E "CH0B" [x00] 1 (snd a2) in
  let a4 := smc_write_key E "CH0I" [x00] 1 (snd a3) in
  ((fst a1, fst a2, fst a3, fst a4), snd a4).

End Smc.

(** ** [smc_tool.c] *)

Module SmcTool.

Import Tool_codec.
Local Open Scope N_scope.
Local Open Scope smc_scope.
Local Open Scope string_scope.

Definition KERNEL_INDEX_SMC : uint32_t := 2%N.
Definition SMC_CMD_READ_BYTES : uint8_t := 5%N.
Definition SMC_CMD_WRITE_BYTES : uint8_t := 6%N.
Definition SMC_CMD_READ_KEYINFO : uint8_t := 9%N.

(** The [char] fields of the structures hold command and status codes;
    they are kept as the value of their byte. *)
Record SMCKeyData_vers_t : Type := {
  major : uint8_t;
  minor : uint8_t;
  build : uint8_t;
  reserved : uint8_t;
  release : uint16_t
}.

Record SMCKeyData_pLimitData_t : Type := {
  version : uint16_t;
  length : uint16_t;
  cpuPLimit : uint32_t;
  gpuPLimit : uint32_t;
  memPLimit : uint32_t
}.

Record SMCKeyData_keyInfo_t : Type := {
  dataSize : uint32_t;
  dataType : uint32_t;
  dataAttributes : uint8_t
}.

Definition SMCBytes_t := list byte.

Record SMCKeyData_t : Type := {
  key : uint32_t;
  vers : SMCKeyData_vers_t;
  pLimitData : SMCKeyData_pLimitData_t;
  keyInfo : SMCKeyData_keyInfo_t;
  result : uint8_t;
  status : uint8_t;
  data8 : uint8_t;
  data32 : uint32_t;
  bytes : SMCBytes_t
}.

Definition UInt32Char_t := string.

(** The fields [key], [dataSize], [dataType] and [bytes] of the source;
    prefixed here, next to those of [SMCKeyData_t]. *)
Record SMCVal_t : Type := {
  val_key : UInt32Char_t;
  val_dataSize : uint32_t;
  val_dataType : UInt32Char_t;
  val_bytes : SMCBytes_t
}.

(** [memset(&s, 0, sizeof(s))]. *)
Definition zero_KeyData : SMCKeyData_t :=
  {| key := 0;
     vers := {| major := 0; minor := 0; build := 0; reserved := 0;
                release := 0 |};
     pLimitData := {| version := 0; length := 0; cpuPLimit := 0;
                      gpuPLimit := 0; memPLimit := 0 |};
     keyInfo := {| dataSize := 0; dataType := 0; dataAttributes := 0 |};
     result := 0; status := 0; data8 := 0; data32 := 0;
     bytes := repeat x00 32 |}.

Definition zero_Val : SMCVal_t :=
  {| val_key := ""; val_dataSize := 0; val_dataType := "";
     val_bytes := repeat x00 32 |}.

(** Assignments to the fields the program writes. *)
Definition tool_set_key (k : uint32_t) (s : SMCKeyData_t) : SMCKeyData_t :=
  {| key := k; vers := vers s; pLimitData := pLimitData s;
     keyInfo := keyInfo s; result := result s; status := status s;
     data8 := data8 s; data32 := data32 s; bytes := bytes s |}.

Definition set_keyInfo_dataSize (n : uint32_t) (s : SMCKeyData_t)
  : SMCKeyData_t :=
  {| key := key s; vers := vers s; pLimitData := pLimitData s;
     keyInfo := {| dataSize := n; dataType := dataType (keyInfo s);
                   dataAttributes := dataAttributes (keyInfo s) |};
     result := result s; status := status s;
     data8 := data8 s; data32 := data32 s; bytes := bytes s |}.

Definition tool_set_data8 (c : uint8_t) (s : SMCKeyData_t) : SMCKeyData_t :=
  {| key := key s; vers := vers s; pLimitData := pLimitData s;
     keyInfo := keyInfo s; result := result s; status := status s;
     data8 := c; data32 := data32 s; bytes := bytes s |}.

Definition tool_set_bytes (b : SMCBytes_t) (s : SMCKeyData_t) : SMCKeyData_t :=
  {| key := key s; vers := vers s; pLimitData := pLimitData s;
     keyInfo := keyInfo s; result := result s; status := status s;
     data8 := data8 s; data32 := data32 s; bytes := b |}.

(** [snprintf(dst, n, "%s", src)]: at most [n - 1] characters of the C
    string [src]. *)
Definition snprintf_s (n : nat) (src : string) : string :=
  substring 0 (Nat.min (n - 1) (strlen src)) src.

Abbreviation g_conn := (@handle SMCKeyData_t).
Abbreviation World := (IOKit.World SMCKeyData_t).
Abbreviation Env := (IOKit.Env SMCKeyData_t).
Abbreviation Event := (IOKit.Event SMCKeyData_t).

Section Program.

Variable E : Env.

Definition SMCClose : M kern_return_t :=
  conn <- get_handle ;;
  IOServiceClose E conn.

Definition SMCCall (inputStructure : SMCKeyData_t)
  : M (kern_return_t * SMCKeyData_t) :=
  conn <- get_handle ;;
  IOConnectCallStructMethod E conn KERNEL_INDEX_SMC inputStructure.

(** The result carries the content of [*val] after the call. *)
Definition SMCReadKey (key : UInt32Char_t) : M (kern_return_t * SMCVal_t) :=
  let inputStructure := zero_KeyData in
  let val := zero_Val in
  let inputStructure := tool_set_key (_strtoul key 4 16) inputStructure in
  let val :=
    {| val_key := snprintf_s 5 key; val_dataSize := val_dataSize val;
       val_dataType := val_dataType val; val_bytes := val_bytes val |} in
  let inputStructure := tool_set_data8 SMC_CMD_READ_KEYINFO inputStructure in
  '(result, outputStructure) <- SMCCall inputStructure ;;
  if negb (result =? kIOReturnSuccess)%Z then ret (result, val)
  else
    let val :=
      {| val_key := val_key val;
         val_dataSize := dataSize (keyInfo outputStructure);
         val_dataType := _ultostr (dataType (keyInfo outputStructure));
         val_bytes := val_bytes val |} in
    let inputStructure :=
      set_keyInfo_dataSize (val_dataSize val) inputStructure in
    let inputStructure := tool_set_data8 SMC_CMD_READ_BYTES inputStructure in
    '(result, outputStructure) <- SMCCall inputStructure ;;
    if negb (result =? kIOReturnSuccess)%Z then ret (result, val)
    else
      let val :=
        {| val_key := val_key val; val_dataSize := val_dataSize val;
           val_dataType := val_dataType val;
           val_bytes := memcpy (val_bytes val) (bytes outputStructure) 32 |}
      in
      ret (kIOReturnSuccess, val).

Definition SMCWriteKey (writeVal : SMCVal_t) : M kern_return_t :=
  '(result, readVal) <- SMCReadKey (val_key writeVal) ;;
  if negb (result =? kIOReturnSuccess)%Z then ret result
  else if negb (val_dataSize readVal =? val_dataSize writeVal)%N then
    fprintf stderr "Error: dataSize mismatch (read=%u, write=%u)\n"
            [ArgU (val_dataSize readVal); ArgU (val_dataSize writeVal)] ;;
    ret kIOReturnError
  else
    let inputStructure := zero_KeyData in
    let inputStructure :=
      tool_set_key (_strtoul (val_key writeVal) 4 16) inputStructure in
    let inputStructure := tool_set_data8 SMC_CMD_WRITE_BYTES inputStructure in
    let inputStructure :=
      set_keyInfo_dataSize (val_dataSize writeVal) inputStructure in
    let inputStructure :=
      tool_set_bytes (memcpy (bytes inputStructure) (val_bytes writeVal) 32)
                inputStructure in
    '(result, outputStructure) <- SMCCall inputStructure ;;
    (if negb (result =? kIOReturnSuccess)%Z then
       fprintf stderr "Error: SMCWriteKey() = %08x\n"
               [ArgX (uint32_of_int result)]
     else ret tt) ;;
    ret result.

(** The loop [for (i = 0; i < val.dataSize; i++)] of [printVal], with
    [fuel] the number of indices left below [val.dataSize]. The array has
    32 bytes; past them C reads what lies behind it, the model zero. *)
Fixpoint printVal_loop (bytes : SMCBytes_t) (fuel i : nat)
  : @M SMCKeyData_t unit :=
  match fuel with
  | O => ret tt
  | S fuel' =>
      fprintf stdout " %02x" [ArgX (Byte.to_N (nth i bytes x00))] ;;
      printVal_loop bytes fuel' (S i)
  end.

Definition printVal (val : SMCVal_t) : @M SMCKeyData_t unit :=
  fprintf stdout "  %-4s  [%-4s]  "
          [ArgS (val_key val); ArgS (val_dataType val)] ;;
  if (0 <? val_dataSize val)%N then
    fprintf stdout "(bytes" [] ;;
    printVal_loop (val_bytes val) (N.to_nat (val_dataSize val)) 0 ;;
    fprintf stdout ")\n" []
  else
    fprintf stdout "no data\n" [].

End Program.

(** The three requests of the tool, as the functions above build them. *)
Definition tool_keyinfo_request (key : UInt32Char_t) : SMCKeyData_t :=
  tool_set_data8 SMC_CMD_READ_KEYINFO
    (tool_set_key (_strtoul key 4 16) zero_KeyData).

Definition tool_read_request (key : UInt32Char_t) (size : uint32_t)
  : SMCKeyData_t :=
  tool_set_data8 SMC_CMD_READ_BYTES
    (set_keyInfo_dataSize size (tool_keyinfo_request key)).

Definition tool_write_request (writeVal : SMCVal_t) : SMCKeyData_t :=
  tool_set_bytes (memcpy (repeat x00 32) (val_bytes writeVal) 32)
    (set_keyInfo_dataSize (val_dataSize writeVal)
       (tool_set_data8 SMC_CMD_WRITE_BYTES
          (tool_set_key (_strtoul (val_key writeVal) 4 16) zero_KeyData))).

(** The command bytes of the requests sent to the controller. *)
Definition tool_commands (t : list Event) : list uint8_t :=
  map data8 (struct_calls t).

End SmcTool.

(** ** Test rigs

    Concrete environments: a controller described by a few tables, used to
    run the program on examples. *)

Module Rig.

Import Smc Smc_codec.
Local Open Scope string_scope.
Local Open Scope list_scope.
Local Open Scope N_scope.

Record Rig : Type := {
  rig_battery : io_service_t;
  rig_smc : io_service_t;
  rig_conn : io_connect_t;
  rig_prop_ok : string -> bool;
  rig_call_ok : uint32_t -> uint8_t -> bool;
  rig_size : uint32_t -> uint32_t;
  rig_data : uint32_t -> list byte
}.

(** The answer of the controller to a request it accepts: the declared
    size and the payload of the key. *)
Definition rig_answer (r : Rig) (input : SMCParamStruct) : SMCParamStruct :=
  set_keyInfo {| dataSize := rig_size r (key input); dataType := 0;
                 dataAttributes := 0 |}
    (set_bytes (rig_data r (key input)) zero_struct).

Definition rig_env (r : Rig) : Smc.Env :=
  {| env_get_matching_service := fun _ name =>
       if (name =? "AppleSmartBattery")%string then rig_battery r
       else if (name =? "AppleSMC")%string then rig_smc r
       else IO_OBJECT_NULL;
     env_set_cf_property := fun _ _ key _ =>
       if rig_prop_ok r key then KERN_SUCCESS else kIOReturnError;
     env_service_open := fun _ _ _ => (KERN_SUCCESS, rig_conn r);
     env_service_close := fun _ _ => KERN_SUCCESS;
     env_call_struct_method := fun _ conn selector input =>
       if (conn =? rig_conn r)%N && (selector =? KERNEL_INDEX_SMC)%N
          && rig_call_ok r (key input) (data8 input)
       then (KERN_SUCCESS, rig_answer r input)
       else (kIOReturnError, zero_struct) |}.

(** The process at start-up, and after [smc_open] on the rig. *)
Definition boot : Smc.World := {| handle := 0; trace := [] |}.

Definition opened (r : Rig) : Smc.World := snd (smc_open (rig_env r) boot).

(** A machine where each of the four methods of the charging policy works
    or not as the four flags say; every key is one byte long. *)
Definition rig4 (b1 b2 b3 b4 : bool) : Rig :=
  {| rig_battery := 7; rig_smc := 8; rig_conn := 9;
     rig_prop_ok := fun name =>
       if (name =? "ChargeInhibit")%string then b1
       else if (name =? "ChargeRate")%string then b2
       else false;
     rig_call_ok := fun k _ =>
       if (k =? four_char_code "CH0B")%N then b3
       else if (k =? four_char_code "CH0I")%N then b4
       else false;
     rig_size := fun _ => 1;
     rig_data := fun _ => repeat x00 32 |}.

(** A machine without usable registry properties whose controller accepts
    every request and declares [size] bytes for every key, with payload
    [data]. *)
Definition rig_smc_only (size : uint32_t) (data : list byte) : Rig :=
  {| rig_battery := 7; rig_smc := 8; rig_conn := 9;
     rig_prop_ok := fun _ => false;
     rig_call_ok := fun _ _ => true;
     rig_size := fun _ => size;
     rig_data := fun _ => data |}.

Arguments rig_smc_only size%_N data.

(** The same machine with every registry property accepted. *)
Definition rig_registry (size : uint32_t) (data : list byte) : Rig :=
  {| rig_battery := 7; rig_smc := 8; rig_conn := 9;
     rig_prop_ok := fun _ => true;
     rig_call_ok := fun _ _ => true;
     rig_size := fun _ => size;
     rig_data := fun _ => data |}.

Arguments rig_registry size%_N data.

(** A controller that rejects every request. *)
Definition rig_dead : Rig :=
  {| rig_battery := 0; rig_smc := 8; rig_conn := 9;
     rig_prop_ok := fun _ => false;
     rig_call_ok := fun _ _ => false;
     rig_size := fun _ => 0;
     rig_data := fun _ => repeat x00 32 |}.

(** A payload of 32 distinct bytes. *)
Definition ramp : list byte :=
  [x01; x02; x03; x04; x05; x06; x07; x08; x09; x0a; x0b; x0c; x0d; x0e;
   x0f; x10; x11; x12; x13; x14; x15; x16; x17; x18; x19; x1a; x1b; x1c;
   x1d; x1e; x1f; x20].

(** The payload of the last write request for key [k] that the controller
    accepted, if any. *)
Definition last_written (k : uint32_t) (h : list Smc.Event)
  : option (list byte) :=
  fold_left
    (fun acc e =>
       match e with
       | EvCallStructMethod _ _ input kr _ =>
           if (data8 input =? SMC_CMD_WRITE_BYTES)%N && (key input =? k)%N
              && (kr =? KERN_SUCCESS)%Z
           then Some (bytes input) else acc
       | _ => acc
       end) h None.

(** A controller with a memory: it declares [sizes k] bytes for key [k],
    accepts every write, and answers a read with the payload of the last
    write to that key (zeros before the first one). *)
Definition store_env (sizes : uint32_t -> uint32_t) : Smc.Env :=
  {| env_get_matching_service := fun _ name =>
       if (name =? "AppleSMC")%string then 8 else IO_OBJECT_NULL;
     env_set_cf_property := fun _ _ _ _ => kIOReturnError;
     env_service_open := fun _ _ _ => (KERN_SUCCESS, 9);
     env_service_close := fun _ _ => KERN_SUCCESS;
     env_call_struct_method := fun h _ _ input =>
       if (data8 input =? SMC_CMD_READ_KEYINFO)%N then
         (KERN_SUCCESS,
          set_keyInfo {| dataSize := sizes (key input); dataType := 0;
                         dataAttributes := 0 |} zero_struct)
       else if (data8 input =? SMC_CMD_READ_BYTES)%N then
         (KERN_SUCCESS,
          set_bytes (match last_written (key input) h with
                     | Some b => b
                     | None => repeat x00 32
                     end) zero_struct)
       else if (data8 input =? SMC_CMD_WRITE_BYTES)%N then
         (KERN_SUCCESS, zero_struct)
       else (kIOReturnError, zero_struct) |}.

(** A machine with neither service. *)
Definition rig_bare : Rig :=
  {| rig_battery := 0; rig_smc := 0; rig_conn := 9;
     rig_prop_ok := fun _ => false;
     rig_call_ok := fun _ _ => false;
     rig_size := fun _ => 0;
     rig_data := fun _ => repeat x00 32 |}.

(** A machine whose [IOServiceOpen] is refused, leaving 5 in the handle. *)
Definition refusing_env : Smc.Env :=
  {| env_get_matching_service := fun _ _ => 8;
     env_set_cf_property := fun _ _ _ _ => kIOReturnError;
     env_service_open := fun _ _ _ => (kIOReturnError, 5);
     env_service_close := fun _ _ => KERN_SUCCESS;
     env_call_struct_method := fun _ _ _ _ => (kIOReturnError, zero_struct) |}.

End Rig.

(** A controller for the diagnostic tool that accepts every request and
    declares [size] bytes for every key, with payload [data]. *)
Module ToolRig.

Import SmcTool.
Local Open Scope N_scope.

Definition tool_answer (size : uint32_t) (data : list byte) : SMCKeyData_t :=
  set_keyInfo_dataSize size (tool_set_bytes data zero_KeyData).

Definition tool_env (size : uint32_t) (data : list byte) : SmcTool.Env :=
  {| env_get_matching_service := fun _ _ => 8;
     env_set_cf_property := fun _ _ _ _ => kIOReturnError;
     env_service_open := fun _ _ _ => (kIOReturnSuccess, 9);
     env_service_close := fun _ _ => kIOReturnSuccess;
     env_call_struct_method := fun _ _ _ _ =>
       (kIOReturnSuccess, tool_answer size data) |}.

Arguments tool_env size%_N data.

(** The process once [SMCOpen] has stored the connection in [g_conn]. *)
Definition tool_opened : SmcTool.World := {| handle := 9; trace := [] |}.

(** The value the tool builds for [-k BCLM -w 3200]: two bytes. *)
Definition two_bytes : SMCVal_t :=
  {| val_key := "BCLM"%string; val_dataSize := 2; val_dataType := ""%string;
     val_bytes := x32 :: x00 :: repeat x00 30 |}.

(** The value the tool builds for [-k BCLM -w 32]: one byte. *)
Definition one_byte : SMCVal_t :=
  {| val_key := "BCLM"%string; val_dataSize := 1; val_dataType := ""%string;
     val_bytes := x32 :: repeat x00 31 |}.

(** A controller that rejects every request of the tool. *)
Definition tool_env_dead : SmcTool.Env :=
  {| env_get_matching_service := fun _ _ => 8;
     env_set_cf_property := fun _ _ _ _ => kIOReturnError;
     env_service_open := fun _ _ _ => (kIOReturnSuccess, 9);
     env_service_close := fun _ _ => kIOReturnSuccess;
     env_call_struct_method := fun _ _ _ _ =>
       (kIOReturnError, zero_KeyData) |}.

End ToolRig.

(** * Properties *)

(** ** Binary codec *)

Module CodecFacts.

Import Smc_codec Tool_codec.
Local Open Scope string_scope.
Local Open Scope N_scope.

Lemma uchar_of_bound (c : ascii) : uchar_of c < 256.
Proof. unfold uchar_of. apply N_ascii_bounded. Qed.

Lemma char_of_uchar_of (c : ascii) : char_of (uchar_of c) = c.
Proof.
  unfold char_of, uchar_of.
  rewrite N.mod_small by apply N_ascii_bounded.
  apply ascii_N_embedding.
Qed.

(** Below 256 the low byte of a word shifted by 8 is free, so [|] adds. *)
Lemma lor_shiftl8 (x y : N) : y < 256 -> N.lor (N.shiftl x 8) y = x * 256 + y.
Proof.
  intros Hy.
  assert (Hland : N.land (N.shiftl x 8) y = 0).
  { apply N.bits_inj. intros n. rewrite N.land_spec, N.bits_0.
    destruct (N.ltb_spec n 8) as [Hn | Hn].
    - rewrite N.shiftl_spec_low by assumption. reflexivity.
    - replace y with (y mod 2 ^ 8) by (apply N.mod_small; exact Hy).
      rewrite N.mod_pow2_bits_high by assumption.
      apply andb_false_r. }
  rewrite <- N.lxor_lor by assumption.
  rewrite <- N.add_nocarry_lxor by assumption.
  rewrite N.shiftl_mul_pow2. reflexivity.
Qed.

(** One term of [_strtoul] in base 16: the byte moved to its place, cut to
    32 bits. *)
Lemma strtoul_term (n : N) (sh : Z) :
  (0 <= sh)%Z ->
  uint32_of_int (int_shl (Z.of_N n) sh) = (n * 2 ^ Z.to_N sh) mod 2 ^ 32.
Proof.
  intros Hsh. unfold uint32_of_int, int_shl, wrap_int.
  rewrite Z.shiftl_mul_pow2 by assumption.
  replace (((Z.of_N n * 2 ^ sh + 2 ^ 31) mod 2 ^ 32 - 2 ^ 31) mod 2 ^ 32)%Z
    with ((Z.of_N n * 2 ^ sh) mod 2 ^ 32)%Z.
  - apply N2Z.inj.
    rewrite Z2N.id by (apply Z.mod_pos_bound; reflexivity).
    rewrite N2Z.inj_mod, N2Z.inj_mul, !N2Z.inj_pow.
    rewrite Z2N.id by assumption. reflexivity.
  - set (v := (Z.of_N n * 2 ^ sh)%Z).
    rewrite Zminus_mod, Zmod_mod, <- Zminus_mod.
    f_equal. lia.
Qed.

Lemma uc_bound (s : string) (i : nat) : uc s i < 256.
Proof. apply uchar_of_bound. Qed.

Ltac euclid := zify; Z.to_euclidean_division_equations; lia.

(** [_strtoul(s, 4, 16)] always reads four bytes and packs them, first byte
    highest. *)
Lemma strtoul4_value (s : string) :
  _strtoul s 4 16 = uc s 0 * 2 ^ 24 + uc s 1 * 2 ^ 16 + uc s 2 * 2 ^ 8 + uc s 3.
Proof.
  unfold _strtoul. change (Z.to_nat 4) with 4%nat.
  cbn [_strtoul_loop]. change (16 =? 16)%Z with true. cbv iota.
  rewrite !strtoul_term by (cbn; lia).
  change (Z.to_N ((4 - 1 - Z.of_nat 0) * 8)) with 24.
  change (Z.to_N ((4 - 1 - Z.of_nat 1) * 8)) with 16.
  change (Z.to_N ((4 - 1 - Z.of_nat 2) * 8)) with 8.
  change (Z.to_N ((4 - 1 - Z.of_nat 3) * 8)) with 0.
  pose proof (uc_bound s 0). pose proof (uc_bound s 1).
  pose proof (uc_bound s 2). pose proof (uc_bound s 3).
  fold (uc s 0) (uc s 1) (uc s 2) (uc s 3). unfold uint32.
  euclid.
Qed.

(** [four_char_code] packs the bytes before the first NUL among the first
    four. *)
Lemma four_char_code_value (s : string) :
  four_char_code s =
  if uc s 0 =? 0 then 0
  else if uc s 1 =? 0 then uc s 0
  else if uc s 2 =? 0 then uc s 0 * 2 ^ 8 + uc s 1
  else if uc s 3 =? 0 then uc s 0 * 2 ^ 16 + uc s 1 * 2 ^ 8 + uc s 2
  else uc s 0 * 2 ^ 24 + uc s 1 * 2 ^ 16 + uc s 2 * 2 ^ 8 + uc s 3.
Proof.
  unfold four_char_code. cbn [four_char_code_loop].
  fold (uc s 0) (uc s 1) (uc s 2) (uc s 3).
  pose proof (uc_bound s 0). pose proof (uc_bound s 1).
  pose proof (uc_bound s 2). pose proof (uc_bound s 3).
  destruct (uc s 0 =? 0); [reflexivity|].
  rewrite N.shiftl_0_l, N.lor_0_l.
  assert (E0 : uint32 (uc s 0) = uc s 0) by (unfold uint32; euclid).
  rewrite E0.
  destruct (uc s 1 =? 0); [reflexivity|].
  rewrite lor_shiftl8 by assumption.
  assert (E1 : uint32 (uc s 0 * 256 + uc s 1) = uc s 0 * 2 ^ 8 + uc s 1)
    by (unfold uint32; euclid).
  rewrite E1.
  destruct (uc s 2 =? 0); [reflexivity|].
  rewrite lor_shiftl8 by assumption.
  assert (E2 : uint32 ((uc s 0 * 2 ^ 8 + uc s 1) * 256 + uc s 2)
               = uc s 0 * 2 ^ 16 + uc s 1 * 2 ^ 8 + uc s 2)
    by (unfold uint32; euclid).
  rewrite E2.
  destruct (uc s 3 =? 0); [reflexivity|].
  rewrite lor_shiftl8 by assumption.
  unfold uint32; euclid.
Qed.

(** The bytes of a buffer below and at its [strlen]. *)
Lemma uc_below_strlen (s : string) (i : nat) :
  (i < strlen s)%nat -> uc s i <> 0.
Proof.
  revert i. induction s as [|c s IH]; intros i Hi; cbn [strlen] in Hi.
  - lia.
  - destruct (N.eqb_spec (N_of_ascii c) 0) as [Hc | Hc]; [lia|].
    destruct i as [|i].
    + exact Hc.
    + apply (IH i). lia.
Qed.

Lemma uc_from_strlen (s : string) (i : nat) :
  String.length s = strlen s -> (strlen s <= i)%nat -> uc s i = 0.
Proof.
  revert i. induction s as [|c s IH]; intros i Hlen Hi.
  - reflexivity.
  - cbn [strlen String.length] in Hlen, Hi.
    destruct (N.eqb_spec (N_of_ascii c) 0) as [Hc | Hc]; [discriminate|].
    destruct i as [|i]; [lia|].
    apply (IH i); lia.
Qed.


(** The byte at index [strlen] is the terminator. *)
Lemma uc_terminator (s : string) : uc s (strlen s) = 0.
Proof.
  induction s as [|c s IH]; [reflexivity|].
  cbn [strlen]. destruct (N.eqb_spec (N_of_ascii c) 0) as [Hc | Hc].
  - exact Hc.
  - exact IH.
Qed.

(** C2, amended: the two encodings agree on every string of at least four
    characters. On a string of one to three characters they differ:
    [four_char_code] stops at the terminator and stays below [2^24], while
    [_strtoul] still reads four bytes and keeps the first one highest. In a
    buffer that is zero after its terminator the value of [_strtoul] is
    that of [four_char_code] moved up by eight bits for each missing
    character, and for the empty string both are 0. *)
Theorem four_char_code_strtoul_agree (s : string) :
  ((4 <= strlen s)%nat -> four_char_code s = _strtoul s 4 16) /\
  (String.length s = strlen s ->
   _strtoul s 4 16 =
   N.shiftl (four_char_code s) (8 * N.of_nat (4 - Nat.min 4 (strlen s)))) /\
  ((1 <= strlen s < 4)%nat -> four_char_code s <> _strtoul s 4 16) /\
  (String.length s = strlen s -> strlen s = 0%nat ->
   four_char_code s = 0 /\ _strtoul s 4 16 = 0).
Proof.
  rewrite strtoul4_value, four_char_code_value.
  refine (conj _ (conj _ (conj _ _))).
  - intros Hlen.
    rewrite !(proj2 (N.eqb_neq _ _)) by (apply uc_below_strlen; lia).
    reflexivity.
  - intros Hnul. rewrite N.shiftl_mul_pow2.
    pose proof (uc_below_strlen s 0) as L0.
    pose proof (uc_below_strlen s 1) as L1.
    pose proof (uc_below_strlen s 2) as L2.
    pose proof (uc_below_strlen s 3) as L3.
    pose proof (uc_from_strlen s 0 Hnul) as G0.
    pose proof (uc_from_strlen s 1 Hnul) as G1.
    pose proof (uc_from_strlen s 2 Hnul) as G2.
    pose proof (uc_from_strlen s 3 Hnul) as G3.
    destruct (strlen s) as [|[|[|[|n]]]].
    + rewrite G0, G1, G2, G3 by lia. reflexivity.
    + rewrite G1, G2, G3 by lia.
      rewrite (proj2 (N.eqb_neq _ _)) by (apply L0; lia).
      cbn. lia.
    + rewrite G2, G3 by lia.
      rewrite !(proj2 (N.eqb_neq (uc s 0) _)) by (apply L0; lia).
      rewrite !(proj2 (N.eqb_neq (uc s 1) _)) by (apply L1; lia).
      cbn. lia.
    + rewrite G3 by lia.
      rewrite !(proj2 (N.eqb_neq (uc s 0) _)) by (apply L0; lia).
      rewrite !(proj2 (N.eqb_neq (uc s 1) _)) by (apply L1; lia).
      rewrite !(proj2 (N.eqb_neq (uc s 2) _)) by (apply L2; lia).
      cbn. lia.
    + rewrite !(proj2 (N.eqb_neq (uc s 0) _)) by (apply L0; lia).
      rewrite !(proj2 (N.eqb_neq (uc s 1) _)) by (apply L1; lia).
      rewrite !(proj2 (N.eqb_neq (uc s 2) _)) by (apply L2; lia).
      rewrite !(proj2 (N.eqb_neq (uc s 3) _)) by (apply L3; lia).
      cbn. lia.
  - intros Hshort.
    pose proof (uc_below_strlen s 0) as L0.
    pose proof (uc_below_strlen s 1) as L1.
    pose proof (uc_below_strlen s 2) as L2.
    pose proof (uc_terminator s) as T.
    pose proof (uc_bound s 0). pose proof (uc_bound s 1).
    pose proof (uc_bound s 2). pose proof (uc_bound s 3).
    change (2 ^ 8) with 256. change (2 ^ 16) with 65536.
    change (2 ^ 24) with 16777216.
    destruct (strlen s) as [|[|[|[|n]]]]; try lia.
    + rewrite T.
      rewrite (proj2 (N.eqb_neq _ _)) by (apply L0; lia).
      cbn [N.eqb]. specialize (L0 ltac:(lia)). lia.
    + rewrite T.
      rewrite !(proj2 (N.eqb_neq (uc s 0) _)) by (apply L0; lia).
      rewrite !(proj2 (N.eqb_neq (uc s 1) _)) by (apply L1; lia).
      cbn [N.eqb]. specialize (L0 ltac:(lia)). lia.
    + rewrite T.
      rewrite !(proj2 (N.eqb_neq (uc s 0) _)) by (apply L0; lia).
      rewrite !(proj2 (N.eqb_neq (uc s 1) _)) by (apply L1; lia).
      rewrite !(proj2 (N.eqb_neq (uc s 2) _)) by (apply L2; lia).
      cbn [N.eqb]. specialize (L0 ltac:(lia)). lia.
  - intros Hnul Hempty.
    rewrite (uc_from_strlen s 0 Hnul), (uc_from_strlen s 1 Hnul),
      (uc_from_strlen s 2 Hnul), (uc_from_strlen s 3 Hnul) by lia.
    split; reflexivity.
Qed.

(** C2 as stated fails on a string of three characters: [four_char_code]
    stops at the terminator, [_strtoul] reads it as a fourth byte. *)
Lemma four_char_code_strtoul_differ_on_short :
  four_char_code "ABC" <> _strtoul "ABC" 4 16.
Proof. vm_compute. discriminate. Qed.

Lemma four_char_code_strtoul_agree_witness :
  ((4 <= strlen "CH0B")%nat /\
   four_char_code "CH0B" = _strtoul "CH0B" 4 16) /\
  (String.length "AB" = strlen "AB" /\
   _strtoul "AB" 4 16 =
   N.shiftl (four_char_code "AB")
     (8 * N.of_nat (4 - Nat.min 4 (strlen "AB")))) /\
  ((1 <= strlen "A" < 4)%nat /\ four_char_code "A" <> _strtoul "A" 4 16) /\
  (String.length "" = strlen "" /\ strlen "" = 0%nat /\
   four_char_code "" = 0 /\ _strtoul "" 4 16 = 0).
Proof.
  refine (conj (conj _ _)
            (conj (conj _ _)
               (conj (conj _ _) (conj _ (conj _ _))))).
  - cbn; lia.
  - apply (proj1 (four_char_code_strtoul_agree "CH0B")); cbn; lia.
  - reflexivity.
  - apply (proj1 (proj2 (four_char_code_strtoul_agree "AB"))). reflexivity.
  - cbn; lia.
  - apply (proj1 (proj2 (proj2 (four_char_code_strtoul_agree "A")))).
    cbn; lia.
  - reflexivity.
  - reflexivity.
  - apply (proj2 (proj2 (proj2 (four_char_code_strtoul_agree ""))));
      reflexivity.
Defined.

(** C5: decoding the encoding of a string of four characters gives the
    string back. *)
Theorem ultostr_strtoul_roundtrip (s : string) :
  String.length s = 4%nat -> _ultostr (_strtoul s 4 16) = s.
Proof.
  destruct s as [|a [|b [|c [|d [|e s]]]]]; cbn [String.length];
    try discriminate.
  intros _. rewrite strtoul4_value. unfold uc. cbn [char_at String.get].
  pose proof (uchar_of_bound a). pose proof (uchar_of_bound b).
  pose proof (uchar_of_bound c). pose proof (uchar_of_bound d).
  unfold _ultostr.
  repeat match goal with
  | |- String _ _ = String _ _ => f_equal
  | |- char_of _ = ?x =>
      transitivity (char_of (uchar_of x)); [| apply char_of_uchar_of];
      unfold char_of; f_equal; rewrite ?N.shiftr_div_pow2; euclid
  end.
Qed.

Lemma ultostr_strtoul_roundtrip_witness :
  String.length "CH0B" = 4%nat /\ _ultostr (_strtoul "CH0B" 4 16) = "CH0B".
Proof.
  split; [reflexivity|].
  apply (ultostr_strtoul_roundtrip "CH0B"). reflexivity.
Defined.

End CodecFacts.

(** ** Traces and the monad *)

Module IOKitFacts.

Lemma struct_calls_app {P : Type} (t1 t2 : list (IOKit.Event P)) :
  struct_calls (t1 ++ t2) = struct_calls t1 ++ struct_calls t2.
Proof.
  induction t1 as [|e t1 IH]; [reflexivity|].
  destruct e; cbn [struct_calls app]; rewrite IH; reflexivity.
Qed.

Lemma closes_app {P : Type} (t1 t2 : list (IOKit.Event P)) :
  closes (t1 ++ t2) = closes t1 ++ closes t2.
Proof.
  induction t1 as [|e t1 IH]; [reflexivity|].
  destruct e; cbn [closes app]; rewrite IH; reflexivity.
Qed.

Lemma bind_eq {P A B : Type} (m : @M P A) (k : A -> @M P B)
      (w : IOKit.World P) :
  bind m k w = k (fst (m w)) (snd (m w)).
Proof. unfold bind. destruct (m w). reflexivity. Qed.

Lemma lookups_app {P : Type} (t1 t2 : list (IOKit.Event P)) :
  lookups (t1 ++ t2) = lookups t1 ++ lookups t2.
Proof.
  induction t1 as [|e t1 IH]; [reflexivity|].
  destruct e; cbn [lookups app]; rewrite IH; reflexivity.
Qed.

End IOKitFacts.

(** ** Key access protocol and charging policy of [smc.c] *)

Module SmcFacts.

Import Smc Smc_codec IOKitFacts.
Local Open Scope string_scope.
Local Open Scope list_scope.
Local Open Scope N_scope.

Lemma commands_app (t1 t2 : list Event) :
  commands (t1 ++ t2) = commands t1 ++ commands t2.
Proof. unfold commands. rewrite struct_calls_app. apply map_app. Qed.

(** Unfolding of the monadic plumbing. *)
Ltac run :=
  unfold smc_call, IOConnectCallStructMethod, IORegistryEntrySetCFProperty,
    IOServiceGetMatchingService, IOServiceOpen, IOServiceClose,
    IOObjectRelease, fprintf, history, get_handle, set_handle, log, bind, ret;
  cbn [fst snd handle trace].

Section WithEnv.

Variable E : Env.

Lemma smc_call_eq (request : SMCParamStruct) (w : World) :
  smc_call E request w = (answer E w request, exchanged E w request).
Proof.
  run. unfold exchanged, answer.
  destruct (env_call_struct_method _ _ _ _ _); reflexivity.
Qed.

Lemma smc_read_key_info_eq (k : uint32_t) (info : SMCKeyInfoData) (w : World) :
  smc_read_key_info E k info w =
  let a := answer E w (keyinfo_request k) in
  let w1 := exchanged E w (keyinfo_request k) in
  if (fst a =? KERN_SUCCESS)%Z then ((0%Z, keyInfo (snd a)), w1)
  else (((-1)%Z, info),
        snd (fprintf stderr "smc: read_key_info failed: 0x%x\n"
               [ArgX (uint32_of_int (fst a))] w1)).
Proof.
  unfold smc_read_key_info. unfold bind at 1.
  fold (keyinfo_request k). rewrite smc_call_eq.
  destruct (answer E w (keyinfo_request k)) as [kr o] eqn:Ha.
  cbn [fst snd]. destruct (kr =? KERN_SUCCESS)%Z; reflexivity.
Qed.

Lemma clamp32_min (size : N) :
  (if 32 <? size then 32 else size) = N.min size 32.
Proof. destruct (N.ltb_spec 32 size); lia. Qed.

(** [smc_read_key], one transport exchange at a time. *)
Lemma smc_read_key_eq (key : string) (out : list byte) (size0 : uint32_t)
      (w : World) :
  smc_read_key E key out size0 w =
  let k := four_char_code key in
  let a1 := answer E w (keyinfo_request k) in
  let w1 := exchanged E w (keyinfo_request k) in
  if (fst a1 =? KERN_SUCCESS)%Z then
    let info := keyInfo (snd a1) in
    let a2 := answer E w1 (read_request k info) in
    let w2 := exchanged E w1 (read_request k info) in
    if (fst a2 =? KERN_SUCCESS)%Z then
      let n := N.min (dataSize info) 32 in
      ((0%Z, memcpy out (bytes (snd a2)) (N.to_nat n), n), w2)
    else (((-1)%Z, out, size0), w2)
  else (((-1)%Z, out, size0),
        snd (fprintf stderr "smc: read_key_info failed: 0x%x\n"
               [ArgX (uint32_of_int (fst a1))] w1)).
Proof.
  unfold smc_read_key. unfold bind at 1. rewrite smc_read_key_info_eq.
  cbv zeta.
  destruct (fst (answer E w (keyinfo_request (four_char_code key)))
            =? KERN_SUCCESS)%Z; [|reflexivity].
  cbn [negb Z.eqb]. cbv iota. unfold bind at 1.
  fold (read_request (four_char_code key)
          (keyInfo (snd (answer E w (keyinfo_request (four_char_code key)))))).
  rewrite smc_call_eq.
  destruct (answer E _ (read_request _ _)) as [kr o].
  cbn [fst snd]. destruct (kr =? KERN_SUCCESS)%Z; cbn [negb]; [|reflexivity].
  rewrite clamp32_min. reflexivity.
Qed.

(** [smc_write_key], one transport exchange at a time. The declared size
    [dataSize info] only travels inside the request. *)
Lemma smc_write_key_eq (key : string) (bytes : list byte) (size : uint32_t)
      (w : World) :
  smc_write_key E key bytes size w =
  let k := four_char_code key in
  let a1 := answer E w (keyinfo_request k) in
  let w1 := exchanged E w (keyinfo_request k) in
  if (fst a1 =? KERN_SUCCESS)%Z then
    let info := keyInfo (snd a1) in
    let a2 := answer E w1 (write_request k info bytes size) in
    let w2 := exchanged E w1 (write_request k info bytes size) in
    if (fst a2 =? KERN_SUCCESS)%Z then
      (0%Z, snd (fprintf stdout "smc: write_key '%s' succeeded\n"
                   [ArgS key] w2))
    else ((-1)%Z,
          snd (fprintf stderr "smc: write_key '%s' failed: 0x%x\n"
                 [ArgS key; ArgX (uint32_of_int (fst a2))] w2))
  else ((-1)%Z,
        snd (fprintf stderr "smc: read_key_info failed: 0x%x\n"
               [ArgX (uint32_of_int (fst a1))] w1)).
Proof.
  unfold smc_write_key. unfold bind at 1. rewrite smc_read_key_info_eq.
  cbv zeta.
  destruct (fst (answer E w (keyinfo_request (four_char_code key)))
            =? KERN_SUCCESS)%Z; [|reflexivity].
  cbn [negb Z.eqb]. cbv iota. unfold bind at 1.
  change (set_bytes _ _) with
    (write_request (four_char_code key)
       (keyInfo (snd (answer E w (keyinfo_request (four_char_code key)))))
       bytes size).
  rewrite smc_call_eq.
  destruct (answer E _ (write_request _ _ _ _)) as [kr o].
  cbn [fst snd]. destruct (kr =? KERN_SUCCESS)%Z; reflexivity.
Qed.

(** The registry path never touches the controller connection. *)
Lemma set_battery_property_calls (key : string) (value : CFTypeRef)
      (w : World) :
  struct_calls (trace (snd (set_battery_property E key value w)))
  = struct_calls (trace w)
  /\ g_smc_conn (snd (set_battery_property E key value w)) = g_smc_conn w.
Proof.
  unfold set_battery_property, get_battery_service. run.
  destruct (env_get_matching_service _ _ _ =? IO_OBJECT_NULL).
  - cbn. rewrite !struct_calls_app. cbn. rewrite !app_nil_r. auto.
  - cbn. destruct (negb _); cbn; rewrite !struct_calls_app; cbn;
      rewrite !app_nil_r; auto.
Qed.

Lemma memcpy_length {A : Type} (dst src : list A) (n : nat) :
  (n <= List.length src)%nat -> (n <= List.length dst)%nat ->
  List.length (memcpy dst src n) = List.length dst.
Proof.
  intros Hs Hd. unfold memcpy.
  rewrite length_app, firstn_length_le, length_skipn by assumption. lia.
Qed.

Lemma memcpy_copied {A : Type} (dst src : list A) (n i : nat) :
  (n <= List.length src)%nat -> (i < n)%nat ->
  nth_error (memcpy dst src n) i = nth_error src i.
Proof.
  intros Hs Hi. unfold memcpy.
  rewrite nth_error_app1 by (rewrite firstn_length_le; lia).
  rewrite nth_error_firstn.
  destruct (Nat.ltb_spec i n); [reflexivity | lia].
Qed.

Lemma memcpy_kept {A : Type} (dst src : list A) (n i : nat) :
  (n <= List.length src)%nat -> (n <= i)%nat ->
  nth_error (memcpy dst src n) i = nth_error dst i.
Proof.
  intros Hs Hi. unfold memcpy.
  rewrite nth_error_app2 by (rewrite firstn_length_le; lia).
  rewrite firstn_length_le by assumption.
  rewrite nth_error_skipn. f_equal. lia.
Qed.

(** The requests a read sends, and its status when the key-info exchange
    fails. *)
Lemma smc_read_key_calls (key : string) (out : list byte) (size0 : uint32_t)
      (w : World) :
  let k := four_char_code key in
  let a1 := answer E w (keyinfo_request k) in
  let res := smc_read_key E key out size0 w in
  struct_calls (trace (snd res)) =
  struct_calls (trace w) ++
    keyinfo_request k ::
    (if (fst a1 =? KERN_SUCCESS)%Z
     then [read_request k (keyInfo (snd a1))] else [])
  /\ (fst a1 <> KERN_SUCCESS -> fst res = ((-1)%Z, out, size0)).
Proof.
  cbv zeta. rewrite smc_read_key_eq. cbv zeta.
  destruct (Z.eqb_spec
              (fst (answer E w (keyinfo_request (four_char_code key))))
              KERN_SUCCESS) as [Hok | Hko].
  - split; [|intros Hne; contradiction].
    destruct (fst (answer E _ (read_request _ _)) =? KERN_SUCCESS)%Z;
      cbn [snd fst exchanged trace]; rewrite !struct_calls_app;
      cbn [struct_calls]; rewrite <- app_assoc; reflexivity.
  - split; [|reflexivity].
    cbn [snd fst exchanged trace fprintf log]; rewrite !struct_calls_app;
      cbn [struct_calls]; rewrite app_nil_r; reflexivity.
Qed.

(** The requests a write sends, and its status when the key-info exchange
    fails. *)
Lemma smc_write_key_calls (key : string) (bytes : list byte)
      (size : uint32_t) (w : World) :
  let k := four_char_code key in
  let a1 := answer E w (keyinfo_request k) in
  let res := smc_write_key E key bytes size w in
  struct_calls (trace (snd res)) =
  struct_calls (trace w) ++
    keyinfo_request k ::
    (if (fst a1 =? KERN_SUCCESS)%Z
     then [write_request k (keyInfo (snd a1)) bytes size] else [])
  /\ (fst a1 <> KERN_SUCCESS -> fst res = (-1)%Z).
Proof.
  cbv zeta. rewrite smc_write_key_eq. cbv zeta.
  destruct (Z.eqb_spec
              (fst (answer E w (keyinfo_request (four_char_code key))))
              KERN_SUCCESS) as [Hok | Hko].
  - split; [|intros Hne; contradiction].
    destruct (fst (answer E _ (write_request _ _ _ _)) =? KERN_SUCCESS)%Z;
      cbn [snd fst exchanged trace fprintf log]; rewrite !struct_calls_app;
      cbn [struct_calls]; rewrite app_nil_r, <- app_assoc; reflexivity.
  - split; [|reflexivity].
    cbn [snd fst exchanged trace fprintf log]; rewrite !struct_calls_app;
      cbn [struct_calls]; rewrite app_nil_r; reflexivity.
Qed.

(** C8: the key-info exchange opens every read and every write, asked anew
    in the world of the call; when it fails the operation returns -1 and
    no data exchange follows. *)
Theorem key_info_call_comes_first (key : string) (w : World) :
  let k := four_char_code key in
  let a1 := answer E w (keyinfo_request k) in
  (forall (out : list byte) (size0 : uint32_t),
      let res := smc_read_key E key out size0 w in
      struct_calls (trace (snd res)) =
      struct_calls (trace w) ++
        keyinfo_request k ::
        (if (fst a1 =? KERN_SUCCESS)%Z
         then [read_request k (keyInfo (snd a1))] else [])
      /\ (fst a1 <> KERN_SUCCESS -> fst res = ((-1)%Z, out, size0))) /\
  (forall (bytes : list byte) (size : uint32_t),
      let res := smc_write_key E key bytes size w in
      struct_calls (trace (snd res)) =
      struct_calls (trace w) ++
        keyinfo_request k ::
        (if (fst a1 =? KERN_SUCCESS)%Z
         then [write_request k (keyInfo (snd a1)) bytes size] else [])
      /\ (fst a1 <> KERN_SUCCESS -> fst res = (-1)%Z)).
Proof.
  cbv zeta. split.
  - intros out size0. apply smc_read_key_calls.
  - intros bytes size. apply smc_write_key_calls.
Qed.

(** C6: a successful read reports [min(declared size, 32)] and copies that
    many bytes of the response payload to the start of the output buffer,
    never more than 32; the rest of the buffer is untouched. *)
Theorem smc_read_key_clamps_to_32 (key : string) (out : list byte)
        (size0 : uint32_t) (w : World) :
  let k := four_char_code key in
  let a1 := answer E w (keyinfo_request k) in
  let declared := dataSize (keyInfo (snd a1)) in
  let w1 := exchanged E w (keyinfo_request k) in
  let payload :=
    bytes (snd (answer E w1 (read_request k (keyInfo (snd a1))))) in
  forall (out' : list byte) (size' : uint32_t),
    fst (smc_read_key E key out size0 w) = (0%Z, out', size') ->
    size' = N.min declared 32 /\ size' <= 32 /\
    out' = firstn (N.to_nat size') payload ++ skipn (N.to_nat size') out /\
    (List.length payload = 32%nat ->
     (N.to_nat size' <= List.length out)%nat ->
     List.length out' = List.length out /\
     (forall i, (i < N.to_nat size')%nat ->
                nth_error out' i = nth_error payload i) /\
     (forall i, (N.to_nat size' <= i)%nat ->
                nth_error out' i = nth_error out i)).
Proof.
  cbv zeta. intros out' size'. rewrite smc_read_key_eq. cbv zeta.
  destruct (fst (answer E w _) =? KERN_SUCCESS)%Z;
    [|cbn [fst]; intros H; inversion H].
  destruct (fst (answer E _ (read_request _ _)) =? KERN_SUCCESS)%Z;
    [|cbn [fst]; intros H; inversion H].
  cbn [fst]. intros H. injection H as Hout Hsize. subst out' size'.
  set (payload := bytes (snd (answer E _ (read_request _ _)))).
  set (n := N.min _ 32).
  split; [reflexivity|]. split; [lia|]. split; [reflexivity|].
  intros Hpay Hbuf.
  assert (Hn : (N.to_nat n <= List.length payload)%nat) by (rewrite Hpay; lia).
  split; [apply memcpy_length; assumption|]. split.
  - intros i Hi. apply memcpy_copied; assumption.
  - intros i Hi. apply memcpy_kept; assumption.
Qed.

(** With a declared size of 0 the clamp is 0 and [memcpy] moves nothing. *)
Lemma smc_read_key_declared_zero (key : string) (out : list byte)
      (size0 : uint32_t) (w : World) :
  let k := four_char_code key in
  let a1 := answer E w (keyinfo_request k) in
  let w1 := exchanged E w (keyinfo_request k) in
  let a2 := answer E w1 (read_request k (keyInfo (snd a1))) in
  fst a1 = KERN_SUCCESS ->
  dataSize (keyInfo (snd a1)) = 0 ->
  fst a2 = KERN_SUCCESS ->
  fst (smc_read_key E key out size0 w) = (0%Z, out, 0).
Proof.
  cbv zeta. intros H1 Hsize H2. rewrite smc_read_key_eq. cbv zeta.
  rewrite H1, H2, Hsize. reflexivity.
Qed.

(** C7: a key of declared size 0 reads as success with size 0, and the
    output buffer is left as it was. *)
Theorem smc_read_key_size_zero (key : string) (out : list byte)
        (size0 : uint32_t) (w : World) :
  let k := four_char_code key in
  let a1 := answer E w (keyinfo_request k) in
  let w1 := exchanged E w (keyinfo_request k) in
  let a2 := answer E w1 (read_request k (keyInfo (snd a1))) in
  fst a1 = KERN_SUCCESS ->
  dataSize (keyInfo (snd a1)) = 0 ->
  fst a2 = KERN_SUCCESS ->
  fst (smc_read_key E key out size0 w) = (0%Z, out, 0).
Proof. exact (smc_read_key_declared_zero key out size0 w). Qed.

(** C10: [smc_get_bclm] hands back the status and the buffer of
    [smc_read_key] and nothing else; the size stays behind. With a declared
    size of 0 it reports success over an output byte nobody wrote. *)
Theorem smc_get_bclm_drops_size (out : list byte) (w : World) :
  (forall (out' : list byte) (size' : uint32_t) (w' : World),
      smc_read_key E "BCLM" out 0 w = ((0%Z, out', size'), w') ->
      smc_get_bclm E out w = ((0%Z, out'), w')) /\
  (let k := four_char_code "BCLM" in
   let a1 := answer E w (keyinfo_request k) in
   let w1 := exchanged E w (keyinfo_request k) in
   let a2 := answer E w1 (read_request k (keyInfo (snd a1))) in
   fst a1 = KERN_SUCCESS ->
   dataSize (keyInfo (snd a1)) = 0 ->
   fst a2 = KERN_SUCCESS ->
   fst (smc_get_bclm E out w) = (0%Z, out)).
Proof.
  split.
  - intros out' size' w' Hread. unfold smc_get_bclm, bind.
    rewrite Hread. reflexivity.
  - cbv zeta. intros H1 Hsize H2.
    pose proof (smc_read_key_declared_zero "BCLM" out 0 w H1 Hsize H2)
      as Hread.
    unfold smc_get_bclm, bind.
    destruct (smc_read_key E "BCLM" out 0 w) as [[[r o] sz] w'].
    cbn [fst] in Hread. inversion Hread. reflexivity.
Qed.

(** C9: closing a zero handle does nothing; after any close the handle is
    zero, so closing again does nothing either. The only release is that
    of a non-zero handle. *)
Theorem smc_close_idempotent (w : World) :
  (g_smc_conn w = 0 -> smc_close E w = (tt, w)) /\
  g_smc_conn (snd (smc_close E w)) = 0 /\
  closes (trace (snd (smc_close E w))) =
    closes (trace w) ++ (if g_smc_conn w =? 0 then [] else [g_smc_conn w]) /\
  smc_close E (snd (smc_close E w)) = (tt, snd (smc_close E w)).
Proof.
  unfold smc_close. run.
  destruct (N.eqb_spec (g_smc_conn w) 0) as [Hz | Hnz]; cbn [negb].
  - repeat split; try assumption.
    + rewrite app_nil_r. reflexivity.
    + cbn [snd]. rewrite Hz. reflexivity.
  - repeat split.
    + intros Hz. contradiction.
    + cbn [snd trace]. rewrite closes_app. reflexivity.
Qed.

Lemma smc_set_bclm_eq (percentage : byte) (w : World) :
  smc_set_bclm E percentage w =
  let reg :=
    set_battery_property E "ChargeCapacity"
      (CFNumberSInt32 (Z.of_N (Byte.to_N percentage))) w in
  if (fst reg =? 0)%Z then (0%Z, snd reg)
  else smc_write_key E "BCLM" [percentage] 1 (snd reg).
Proof.
  unfold smc_set_bclm, bind.
  destruct (set_battery_property E "ChargeCapacity" _ w) as [r w1].
  cbn [fst snd]. destruct (r =? 0)%Z; reflexivity.
Qed.

(** C4: the registry property is tried first. When it succeeds the
    operation succeeds and the controller is not contacted; otherwise the
    operation is one [smc_write_key] of the single byte [percentage] to
    ["BCLM"], whose status it returns. *)
Theorem smc_set_bclm_registry_first (percentage : byte) (w : World) :
  let reg :=
    set_battery_property E "ChargeCapacity"
      (CFNumberSInt32 (Z.of_N (Byte.to_N percentage))) w in
  let k := four_char_code "BCLM" in
  let a1 := answer E (snd reg) (keyinfo_request k) in
  let res := smc_set_bclm E percentage w in
  (fst reg = 0%Z ->
   res = (0%Z, snd reg) /\
   struct_calls (trace (snd res)) = struct_calls (trace w)) /\
  (fst reg <> 0%Z ->
   res = smc_write_key E "BCLM" [percentage] 1 (snd reg) /\
   struct_calls (trace (snd res)) =
   struct_calls (trace w) ++
     keyinfo_request k ::
     (if (fst a1 =? KERN_SUCCESS)%Z
      then [write_request k (keyInfo (snd a1)) [percentage] 1] else []) /\
   bytes (write_request k (keyInfo (snd a1)) [percentage] 1)
   = percentage :: repeat x00 31).
Proof.
  cbv zeta. rewrite smc_set_bclm_eq. cbv zeta.
  pose proof (set_battery_property_calls "ChargeCapacity"
                (CFNumberSInt32 (Z.of_N (Byte.to_N percentage))) w)
    as [Hcalls _].
  destruct (set_battery_property E "ChargeCapacity" _ w) as [r w1].
  cbn [fst snd] in *. split.
  - intros Hr. rewrite Hr. cbn [Z.eqb]. split; [reflexivity|]. exact Hcalls.
  - intros Hr. destruct (Z.eqb_spec r 0) as [Hz | _]; [contradiction|].
    split; [reflexivity|]. split; [|reflexivity].
    rewrite <- Hcalls.
    exact (proj1 (smc_write_key_calls "BCLM" [percentage] 1 w1)).
Qed.

(** Every registry attempt starts by looking the battery service up. *)
Lemma set_battery_property_lookups (key : string) (value : CFTypeRef)
      (w : World) :
  lookups (trace (snd (set_battery_property E key value w)))
  = lookups (trace w) ++ ["AppleSmartBattery"].
Proof.
  unfold set_battery_property, get_battery_service. run.
  destruct (env_get_matching_service _ _ _ =? IO_OBJECT_NULL).
  - cbn. rewrite !lookups_app. cbn. rewrite !app_nil_r. reflexivity.
  - cbn. destruct (negb _); cbn; rewrite !lookups_app; cbn;
      rewrite !app_nil_r; reflexivity.
Qed.

Lemma smc_write_key_lookups (key : string) (bytes : list byte)
      (size : uint32_t) (w : World) :
  lookups (trace (snd (smc_write_key E key bytes size w)))
  = lookups (trace w).
Proof.
  rewrite smc_write_key_eq. cbv zeta.
  destruct (fst (answer E w _) =? KERN_SUCCESS)%Z.
  - destruct (fst (answer E _ (write_request _ _ _ _)) =? KERN_SUCCESS)%Z;
      cbn [snd fst exchanged trace fprintf log]; rewrite !lookups_app;
      cbn [lookups]; rewrite !app_nil_r; reflexivity.
  - cbn [snd fst exchanged trace fprintf log]; rewrite !lookups_app;
      cbn [lookups]; rewrite !app_nil_r; reflexivity.
Qed.

(** [smc_disable_charging] is the four attempts in a row and the
    disjunction of their outcomes. *)
Lemma smc_disable_charging_eq (w : World) :
  smc_disable_charging E w =
  (let '(r1, r2, r3, r4) := fst (disable_attempts E w) in
   if succeeded r1 || succeeded r2 || succeeded r3 || succeeded r4
   then 0%Z else (-1)%Z,
   snd (disable_attempts E w)).
Proof.
  unfold smc_disable_charging, disable_attempts, succeeded.
  cbv zeta. repeat (rewrite bind_eq; cbv beta). unfold ret. cbn [fst snd].
  f_equal.
  destruct (fst (set_battery_property E "ChargeInhibit" _ _) =? 0)%Z,
    (fst (set_battery_property E "ChargeRate" _ _) =? 0)%Z,
    (fst (smc_write_key E "CH0B" _ _ _) =? 0)%Z,
    (fst (smc_write_key E "CH0I" _ _ _) =? 0)%Z; reflexivity.
Qed.

(** The four attempts leave their marks in the trace whatever happens:
    two look-ups of the battery service, then a key-info request for each
    of the two keys. *)
Lemma disable_attempts_trace (w : World) :
  let w' := snd (disable_attempts E w) in
  lookups (trace w') =
    lookups (trace w) ++ ["AppleSmartBattery"; "AppleSmartBattery"] /\
  exists data_b data_i : list SMCParamStruct,
    struct_calls (trace w') =
    struct_calls (trace w) ++
      keyinfo_request (four_char_code "CH0B") :: data_b ++
      keyinfo_request (four_char_code "CH0I") :: data_i.
Proof.
  cbv zeta. unfold disable_attempts. cbn [snd]. split.
  - rewrite !smc_write_key_lookups. cbn [fprintf log snd trace].
    rewrite lookups_app, set_battery_property_lookups,
      set_battery_property_lookups.
    cbn [fprintf log snd trace]. rewrite lookups_app. cbn [lookups].
    rewrite !app_nil_r, <- app_assoc. reflexivity.
  - eexists. eexists.
    rewrite (proj1 (smc_write_key_calls "CH0I" _ _ _)).
    rewrite (proj1 (smc_write_key_calls "CH0B" _ _ _)).
    cbn [fprintf log snd trace]. rewrite struct_calls_app.
    rewrite (proj1 (set_battery_property_calls "ChargeRate" _ _)).
    rewrite (proj1 (set_battery_property_calls "ChargeInhibit" _ _)).
    cbn [fprintf log snd trace]. rewrite struct_calls_app. cbn [struct_calls].
    rewrite !app_nil_r, <- app_assoc. cbn [app]. reflexivity.
Qed.

End WithEnv.

(** C3: [smc_disable_charging] runs its four attempts in order whatever
    their outcomes and succeeds exactly when one of them did; the sixteen
    combinations of outcomes all occur, on the rigs [rig4]. *)
Theorem smc_disable_charging_any_success :
  (forall (E : Env) (w : World),
      smc_disable_charging E w =
      (let '(r1, r2, r3, r4) := fst (disable_attempts E w) in
       if succeeded r1 || succeeded r2 || succeeded r3 || succeeded r4
       then 0%Z else (-1)%Z,
       snd (disable_attempts E w))
      /\ lookups (trace (snd (smc_disable_charging E w))) =
         lookups (trace w) ++ ["AppleSmartBattery"; "AppleSmartBattery"]
      /\ exists data_b data_i : list SMCParamStruct,
          struct_calls (trace (snd (smc_disable_charging E w))) =
          struct_calls (trace w) ++
            keyinfo_request (four_char_code "CH0B") :: data_b ++
            keyinfo_request (four_char_code "CH0I") :: data_i) /\
  (forall b1 b2 b3 b4 : bool,
      let E := Rig.rig_env (Rig.rig4 b1 b2 b3 b4) in
      let w := Rig.opened (Rig.rig4 b1 b2 b3 b4) in
      let status (b : bool) := if b then 0%Z else (-1)%Z in
      fst (disable_attempts E w) = (status b1, status b2, status b3, status b4)
      /\ fst (smc_disable_charging E w) = status (b1 || b2 || b3 || b4)).
Proof.
  split.
  - intros E w. rewrite smc_disable_charging_eq. split; [reflexivity|].
    cbn [snd]. apply disable_attempts_trace.
  - intros b1 b2 b3 b4. cbv zeta. rewrite smc_disable_charging_eq.
    destruct b1, b2, b3, b4; vm_compute; split; reflexivity.
Qed.

(** C1, on the code: [smc_write_key] never compares the caller's size with
    the declared one. On a controller that declares one byte for ["BCLM"],
    a write of two bytes is sent and reported as a success. *)
Theorem smc_write_key_sends_mismatched_size :
  let r := Rig.rig_smc_only 1 Rig.ramp in
  let E := Rig.rig_env r in
  let k := four_char_code "BCLM" in
  let res := smc_write_key E "BCLM" [x32; x00] 2 (Rig.opened r) in
  dataSize (keyInfo (snd (answer E (Rig.opened r) (keyinfo_request k)))) = 1
  /\ fst res = 0%Z
  /\ commands (trace (snd res)) = [SMC_CMD_READ_KEYINFO; SMC_CMD_WRITE_BYTES].
Proof. vm_compute. repeat split; reflexivity. Qed.

(** Whatever the environment and the sizes: once the key-info exchange has
    succeeded the write request goes out. *)
Lemma smc_write_key_no_size_check (E : Env) (key : string)
      (bytes : list byte) (size : uint32_t) (w : World) :
  fst (answer E w (keyinfo_request (four_char_code key))) = KERN_SUCCESS ->
  commands (trace (snd (smc_write_key E key bytes size w)))
  = commands (trace w) ++ [SMC_CMD_READ_KEYINFO; SMC_CMD_WRITE_BYTES].
Proof.
  intros Hok. unfold commands.
  rewrite (proj1 (smc_write_key_calls E key bytes size w)).
  rewrite Hok. cbn [Z.eqb KERN_SUCCESS]. rewrite map_app. reflexivity.
Qed.

(** The general theorems at work on the rigs. *)

Lemma key_info_call_comes_first_witness :
  let r := Rig.rig_dead in
  fst (answer (Rig.rig_env r) (Rig.opened r)
         (keyinfo_request (four_char_code "BCLM"))) <> KERN_SUCCESS
  /\ fst (smc_read_key (Rig.rig_env r) "BCLM" [xff] 0 (Rig.opened r))
     = ((-1)%Z, [xff], 0)
  /\ fst (smc_write_key (Rig.rig_env r) "BCLM" [x32] 1 (Rig.opened r))
     = (-1)%Z.
Proof.
  cbv zeta.
  assert (Hko : fst (answer (Rig.rig_env Rig.rig_dead)
                       (Rig.opened Rig.rig_dead)
                       (keyinfo_request (four_char_code "BCLM")))
                <> KERN_SUCCESS) by (vm_compute; discriminate).
  split; [exact Hko|].
  destruct (key_info_call_comes_first (Rig.rig_env Rig.rig_dead) "BCLM"
              (Rig.opened Rig.rig_dead)) as [Hread Hwrite].
  split.
  - exact (proj2 (Hread [xff] 0) Hko).
  - exact (proj2 (Hwrite [x32] 1) Hko).
Defined.

Lemma smc_read_key_clamps_to_32_witness :
  let r := Rig.rig_smc_only 40 Rig.ramp in
  let out := repeat xff 40 in
  let out' := Rig.ramp ++ repeat xff 8 in
  fst (smc_read_key (Rig.rig_env r) "BCLM" out 0 (Rig.opened r))
  = (0%Z, out', 32)
  /\ 32 = N.min 40 32
  /\ List.length out' = List.length out.
Proof.
  cbv zeta.
  assert (Hrun : fst (smc_read_key (Rig.rig_env (Rig.rig_smc_only 40 Rig.ramp))
                        "BCLM" (repeat xff 40) 0
                        (Rig.opened (Rig.rig_smc_only 40 Rig.ramp)))
                 = (0%Z, Rig.ramp ++ repeat xff 8, 32))
    by (vm_compute; reflexivity).
  split; [exact Hrun|].
  destruct (smc_read_key_clamps_to_32 _ _ _ _ _ _ _ Hrun)
    as (Hsize & _ & _ & Hbuf).
  split; [exact Hsize|].
  apply Hbuf; [reflexivity | cbn; lia].
Defined.

Lemma smc_read_key_size_zero_witness :
  let r := Rig.rig_smc_only 0 Rig.ramp in
  fst (smc_read_key (Rig.rig_env r) "BCLM" [xff] 7 (Rig.opened r))
  = (0%Z, [xff], 0).
Proof.
  cbv zeta.
  apply (smc_read_key_size_zero (Rig.rig_env (Rig.rig_smc_only 0 Rig.ramp))
           "BCLM" [xff] 7 (Rig.opened (Rig.rig_smc_only 0 Rig.ramp)));
    reflexivity.
Defined.

Lemma smc_get_bclm_drops_size_witness :
  (let r := Rig.rig_smc_only 3 Rig.ramp in
   fst (smc_get_bclm (Rig.rig_env r) [xff] (Rig.opened r))
   = (0%Z, [x01; x02; x03]))
  /\ (let r := Rig.rig_smc_only 0 Rig.ramp in
      fst (smc_get_bclm (Rig.rig_env r) [xff] (Rig.opened r))
      = (0%Z, [xff])).
Proof.
  cbv zeta. split.
  - destruct (smc_get_bclm_drops_size
                (Rig.rig_env (Rig.rig_smc_only 3 Rig.ramp)) [xff]
                (Rig.opened (Rig.rig_smc_only 3 Rig.ramp))) as [Hany _].
    rewrite (Hany [x01; x02; x03] 3
               (snd (smc_read_key (Rig.rig_env (Rig.rig_smc_only 3 Rig.ramp))
                       "BCLM" [xff] 0
                       (Rig.opened (Rig.rig_smc_only 3 Rig.ramp))))
               eq_refl).
    reflexivity.
  - apply (proj2 (smc_get_bclm_drops_size
                    (Rig.rig_env (Rig.rig_smc_only 0 Rig.ramp)) [xff]
                    (Rig.opened (Rig.rig_smc_only 0 Rig.ramp))));
      reflexivity.
Defined.

Lemma smc_close_idempotent_witness :
  g_smc_conn Rig.boot = 0
  /\ smc_close (Rig.rig_env Rig.rig_dead) Rig.boot = (tt, Rig.boot)
  /\ closes (trace (snd (smc_close (Rig.rig_env Rig.rig_dead)
                            (Rig.opened Rig.rig_dead)))) = [9].
Proof.
  split; [reflexivity|]. split.
  - apply (proj1 (smc_close_idempotent (Rig.rig_env Rig.rig_dead) Rig.boot)).
    reflexivity.
  - rewrite (proj1 (proj2 (proj2
               (smc_close_idempotent (Rig.rig_env Rig.rig_dead)
                  (Rig.opened Rig.rig_dead))))).
    reflexivity.
Defined.

Lemma smc_set_bclm_registry_first_witness :
  (let r := Rig.rig_registry 1 Rig.ramp in
   commands (trace (snd (smc_set_bclm (Rig.rig_env r) x32 (Rig.opened r))))
   = [])
  /\ (let r := Rig.rig_smc_only 1 Rig.ramp in
      smc_set_bclm (Rig.rig_env r) x32 (Rig.opened r)
      = smc_write_key (Rig.rig_env r) "BCLM" [x32] 1
          (snd (set_battery_property (Rig.rig_env r) "ChargeCapacity"
                  (CFNumberSInt32 50%Z) (Rig.opened r)))).
Proof.
  cbv zeta. split.
  - destruct (smc_set_bclm_registry_first
                (Rig.rig_env (Rig.rig_registry 1 Rig.ramp)) x32
                (Rig.opened (Rig.rig_registry 1 Rig.ramp))) as [Hreg _].
    unfold commands. rewrite (proj2 (Hreg eq_refl)). reflexivity.
  - destruct (smc_set_bclm_registry_first
                (Rig.rig_env (Rig.rig_smc_only 1 Rig.ramp)) x32
                (Rig.opened (Rig.rig_smc_only 1 Rig.ramp))) as [_ Hsmc].
    apply Hsmc. vm_compute. discriminate.
Defined.

End SmcFacts.

(** ** The write path of [smc_tool.c]

    The sibling of [smc_write_key]: it reads the key first and refuses a
    write whose size differs from the declared one. *)

Module SmcToolFacts.

Import SmcTool Tool_codec IOKitFacts.
Local Open Scope string_scope.
Local Open Scope list_scope.
Local Open Scope N_scope.

Section WithEnv.

Variable E : SmcTool.Env.

(** A successful [SMCReadKey] has sent a key-info request and a read
    request. *)
Lemma SMCReadKey_commands (key : UInt32Char_t) (w : SmcTool.World) :
  fst (fst (SMCReadKey E key w)) = kIOReturnSuccess ->
  tool_commands (trace (snd (SMCReadKey E key w)))
  = tool_commands (trace w) ++ [SMC_CMD_READ_KEYINFO; SMC_CMD_READ_BYTES].
Proof.
  unfold SMCReadKey, SMCCall, IOConnectCallStructMethod, history, get_handle,
    log. cbv zeta.
  repeat (rewrite bind_eq; cbv beta). cbn [fst snd trace handle ret].
  destruct (env_call_struct_method E (trace w) _ _ _) as [kr1 o1].
  cbn [fst snd]. destruct (Z.eqb_spec kr1 kIOReturnSuccess) as [H1 | H1].
  - cbn [negb]. repeat (rewrite bind_eq; cbv beta).
    cbn [fst snd trace handle ret].
    destruct (env_call_struct_method E (trace w ++ _) _ _ _) as [kr2 o2].
    cbn [fst snd]. destruct (Z.eqb_spec kr2 kIOReturnSuccess) as [H2 | H2].
    + intros _. cbn [negb ret snd trace]. unfold tool_commands.
      rewrite !struct_calls_app, !map_app, <- app_assoc.
      reflexivity.
    + cbn [negb ret fst]. intros Hkr. contradiction.
  - cbn [negb ret fst]. intros Hkr. contradiction.
Qed.

(** On a size mismatch [SMCWriteKey] returns [kIOReturnError] and sends
    nothing after the read. *)
Lemma SMCWriteKey_size_mismatch (writeVal readVal : SMCVal_t)
      (w w1 : SmcTool.World) :
  SMCReadKey E (val_key writeVal) w = ((kIOReturnSuccess, readVal), w1) ->
  val_dataSize readVal <> val_dataSize writeVal ->
  fst (SMCWriteKey E writeVal w) = kIOReturnError /\
  tool_commands (trace (snd (SMCWriteKey E writeVal w)))
  = tool_commands (trace w) ++ [SMC_CMD_READ_KEYINFO; SMC_CMD_READ_BYTES].
Proof.
  intros Hread Hsize.
  pose proof (SMCReadKey_commands (val_key writeVal) w) as Hcmds.
  unfold SMCWriteKey. rewrite bind_eq. rewrite Hread in *.
  cbn [fst snd] in *. cbn [Z.eqb kIOReturnSuccess negb].
  destruct (N.eqb_spec (val_dataSize readVal) (val_dataSize writeVal))
    as [Heq | _]; [contradiction|].
  cbn [negb]. rewrite bind_eq. cbn [fprintf log ret fst snd trace].
  split; [reflexivity|].
  rewrite <- (Hcmds eq_refl). unfold tool_commands.
  rewrite struct_calls_app. cbn [struct_calls map].
  rewrite app_nil_r. reflexivity.
Qed.

End WithEnv.

(** The same two bytes that [smc_write_key] sends to a one-byte key are
    refused here. *)
Example SMCWriteKey_refuses_two_bytes :
  let res := SMCWriteKey (ToolRig.tool_env 1 Rig.ramp) ToolRig.two_bytes
               ToolRig.tool_opened in
  fst res = kIOReturnError /\
  tool_commands (trace (snd res)) = [SMC_CMD_READ_KEYINFO; SMC_CMD_READ_BYTES].
Proof. vm_compute. split; reflexivity. Qed.

End SmcToolFacts.

(** * Further properties of the code *)

(** ** The codec beyond four-character keys *)

Module CodecMore.

Import Smc_codec Tool_codec CodecFacts.
Local Open Scope string_scope.
Local Open Scope N_scope.

Lemma uc_at_strlen (s : string) : uc s (strlen s) = 0.
Proof.
  induction s as [|c s IH]; [reflexivity|].
  cbn [strlen]. destruct (N.eqb_spec (N_of_ascii c) 0) as [Hc | Hc].
  - exact Hc.
  - exact IH.
Qed.

(** The value of [four_char_code] by the length of the C string. *)
Lemma four_char_code_by_strlen (s : string) :
  four_char_code s =
  match strlen s with
  | 0%nat => 0
  | 1%nat => uc s 0
  | 2%nat => uc s 0 * 2 ^ 8 + uc s 1
  | 3%nat => uc s 0 * 2 ^ 16 + uc s 1 * 2 ^ 8 + uc s 2
  | _ => uc s 0 * 2 ^ 24 + uc s 1 * 2 ^ 16 + uc s 2 * 2 ^ 8 + uc s 3
  end.
Proof.
  rewrite four_char_code_value.
  pose proof (uc_below_strlen s 0) as L0.
  pose proof (uc_below_strlen s 1) as L1.
  pose proof (uc_below_strlen s 2) as L2.
  pose proof (uc_below_strlen s 3) as L3.
  pose proof (uc_at_strlen s) as Z.
  destruct (strlen s) as [|[|[|[|n]]]].
  - rewrite Z. reflexivity.
  - rewrite Z. rewrite (proj2 (N.eqb_neq _ _)) by (apply L0; lia).
    reflexivity.
  - rewrite Z.
    rewrite !(proj2 (N.eqb_neq (uc s 0) _)) by (apply L0; lia).
    rewrite !(proj2 (N.eqb_neq (uc s 1) _)) by (apply L1; lia).
    reflexivity.
  - rewrite Z.
    rewrite !(proj2 (N.eqb_neq (uc s 0) _)) by (apply L0; lia).
    rewrite !(proj2 (N.eqb_neq (uc s 1) _)) by (apply L1; lia).
    rewrite !(proj2 (N.eqb_neq (uc s 2) _)) by (apply L2; lia).
    reflexivity.
  - rewrite !(proj2 (N.eqb_neq (uc s 0) _)) by (apply L0; lia).
    rewrite !(proj2 (N.eqb_neq (uc s 1) _)) by (apply L1; lia).
    rewrite !(proj2 (N.eqb_neq (uc s 2) _)) by (apply L2; lia).
    rewrite !(proj2 (N.eqb_neq (uc s 3) _)) by (apply L3; lia).
    reflexivity.
Qed.

(** X1: a key code uses [n = min(4, strlen)] bytes and its top byte is not
    zero: the code lies in [[2^(8(n-1)), 2^(8n))], and is 0 exactly for the
    empty string. *)
Theorem four_char_code_range (s : string) :
  let n := N.of_nat (Nat.min 4 (strlen s)) in
  four_char_code s < 2 ^ (8 * n) /\
  (strlen s <> 0%nat -> 2 ^ (8 * (n - 1)) <= four_char_code s) /\
  (strlen s = 0%nat -> four_char_code s = 0).
Proof.
  cbv zeta. rewrite four_char_code_by_strlen.
  pose proof (uc_bound s 0). pose proof (uc_bound s 1).
  pose proof (uc_bound s 2). pose proof (uc_bound s 3).
  pose proof (uc_below_strlen s 0) as L0.
  destruct (strlen s) as [|[|[|[|n]]]]; cbn [Nat.min];
    (split; [|split]); try (intros; congruence); try reflexivity;
    try (intros _; specialize (L0 ltac:(lia))); cbn; try lia.
Qed.

Lemma four_char_code_range_witness :
  (strlen "CH0B" <> 0%nat /\ 2 ^ 24 <= four_char_code "CH0B")
  /\ (strlen "" = 0%nat /\ four_char_code "" = 0).
Proof.
  split; split.
  - discriminate.
  - apply (proj1 (proj2 (four_char_code_range "CH0B"))). discriminate.
  - reflexivity.
  - apply (proj2 (proj2 (four_char_code_range ""))). reflexivity.
Defined.

(** X2: only the characters before the terminator, and at most the first
    four of them, enter the code. *)
Theorem four_char_code_prefix (s : string) :
  four_char_code s = four_char_code (substring 0 (Nat.min 4 (strlen s)) s).
Proof.
  unfold four_char_code.
  destruct s as [|a [|b [|c [|d rest]]]]; cbn [strlen];
    repeat match goal with
           | |- context [(N_of_ascii ?x =? 0)] =>
               destruct (N_of_ascii x =? 0) eqn:?
           end;
    cbn [Nat.min substring four_char_code_loop char_at String.get];
    unfold uchar_of; change (N_of_ascii zero) with 0; cbn [N.eqb];
    repeat match goal with
           | H : (N_of_ascii ?x =? 0) = _ |- _ => rewrite H
           end;
    reflexivity.
Qed.

Lemma N_of_ascii_inj (a b : ascii) : N_of_ascii a = N_of_ascii b -> a = b.
Proof.
  intros H. rewrite <- (ascii_N_embedding a), <- (ascii_N_embedding b).
  rewrite H. reflexivity.
Qed.

(** X3: two C strings of at most four characters with the same code are
    the same string, whatever their lengths. *)
Theorem four_char_code_injective (s t : string) :
  String.length s = strlen s -> String.length t = strlen t ->
  (String.length s <= 4)%nat -> (String.length t <= 4)%nat ->
  four_char_code s = four_char_code t -> s = t.
Proof.
  intros Hs Ht Ls Lt Heq. rewrite !four_char_code_value in Heq.
  destruct s as [|a [|b [|c [|d [|e s]]]]];
    destruct t as [|a' [|b' [|c' [|d' [|e' t]]]]];
    cbn [String.length] in Ls, Lt; try lia; clear Ls Lt;
    cbn [String.length strlen] in Hs, Ht;
    unfold uc in Heq; cbn [char_at String.get] in Heq;
    unfold uchar_of in Heq; change (N_of_ascii zero) with 0 in Heq;
    repeat match goal with
           | H : context [(N_of_ascii ?x =? 0)] |- _ =>
               destruct (N.eqb_spec (N_of_ascii x) 0)
           end;
    try discriminate; cbn [N.eqb] in Heq;
    change (2 ^ 8) with 256 in Heq; change (2 ^ 16) with 65536 in Heq;
    change (2 ^ 24) with 16777216 in Heq;
    repeat match goal with
           | x : ascii |- _ =>
               lazymatch goal with
               | H : N_of_ascii x < 256 |- _ => fail
               | _ => pose proof (N_ascii_bounded x)
               end
           end;
    first [ reflexivity
          | exfalso; lia
          | repeat match goal with
                   | |- String _ _ = String _ _ => f_equal
                   | |- @eq ascii _ _ => apply N_of_ascii_inj; lia
                   end ].
Qed.

Lemma four_char_code_injective_witness :
  "CH0B" = "CH0B" /\ four_char_code "CH0B" <> four_char_code "CH0I".
Proof.
  split.
  - apply (four_char_code_injective "CH0B" "CH0B");
      try reflexivity; cbn; lia.
  - intros Heq.
    assert (Hs : "CH0B" = "CH0I")
      by (apply (four_char_code_injective "CH0B" "CH0I");
          try reflexivity; try exact Heq; cbn; lia).
    discriminate Hs.
Defined.

(** X4: encoding what [_ultostr] decoded gives the low 32 bits of the
    value back. *)
Theorem strtoul_ultostr_roundtrip (v : N) :
  _strtoul (_ultostr v) 4 16 = v mod 2 ^ 32.
Proof.
  rewrite strtoul4_value. unfold uc, _ultostr. cbn [char_at String.get].
  unfold uchar_of, char_of.
  rewrite !N_ascii_embedding by (apply N.mod_upper_bound; discriminate).
  rewrite !N.shiftr_div_pow2. euclid.
Qed.

(** One term of [_strtoul] in another base, for a digit character. *)
Lemma strtoul_term_digit (c : ascii) (sh : Z) :
  48 <= N_of_ascii c <= 57 -> (0 <= sh)%Z ->
  uint_shl (uint32_of_int (schar_of c - 48)) sh
  = ((N_of_ascii c - 48) * 2 ^ Z.to_N sh) mod 2 ^ 32.
Proof.
  intros Hc Hsh. unfold uint_shl, uint32_of_int, schar_of, uint32.
  cbv zeta.
  destruct (Z.ltb_spec (Z.of_N (N_of_ascii c)) 128) as [_ | Hbig]; [|lia].
  rewrite Z.mod_small by lia.
  replace (Z.to_N (Z.of_N (N_of_ascii c) - 48)) with (N_of_ascii c - 48)
    by lia.
  rewrite N.shiftl_mul_pow2. reflexivity.
Qed.

(** X5: in a base other than 16 [_strtoul] does not read a number in that
    base: it subtracts ['0'] from each of the four characters and puts
    each digit in a byte of its own. *)
Theorem strtoul_digits_bytewise (s : string) (base : Z) :
  base <> 16%Z ->
  (forall i, (i < 4)%nat -> 48 <= uc s i <= 57) ->
  _strtoul s 4 base =
  (uc s 0 - 48) * 2 ^ 24 + (uc s 1 - 48) * 2 ^ 16
  + (uc s 2 - 48) * 2 ^ 8 + (uc s 3 - 48).
Proof.
  intros Hbase Hdigits.
  pose proof (Hdigits 0%nat ltac:(lia)) as H0.
  pose proof (Hdigits 1%nat ltac:(lia)) as H1.
  pose proof (Hdigits 2%nat ltac:(lia)) as H2.
  pose proof (Hdigits 3%nat ltac:(lia)) as H3.
  unfold uc, uchar_of in *.
  unfold _strtoul. change (Z.to_nat 4) with 4%nat.
  cbn [_strtoul_loop].
  destruct (Z.eqb_spec base 16) as [Hb | _]; [contradiction|].
  rewrite !strtoul_term_digit by (assumption || (cbn; lia)).
  change (Z.to_N ((4 - 1 - Z.of_nat 0) * 8)) with 24.
  change (Z.to_N ((4 - 1 - Z.of_nat 1) * 8)) with 16.
  change (Z.to_N ((4 - 1 - Z.of_nat 2) * 8)) with 8.
  change (Z.to_N ((4 - 1 - Z.of_nat 3) * 8)) with 0.
  assert (D0 : N_of_ascii (char_at s 0) - 48 <= 9) by lia.
  assert (D1 : N_of_ascii (char_at s 1) - 48 <= 9) by lia.
  assert (D2 : N_of_ascii (char_at s 2) - 48 <= 9) by lia.
  assert (D3 : N_of_ascii (char_at s 3) - 48 <= 9) by lia.
  generalize dependent (N_of_ascii (char_at s 0) - 48).
  generalize dependent (N_of_ascii (char_at s 1) - 48).
  generalize dependent (N_of_ascii (char_at s 2) - 48).
  generalize dependent (N_of_ascii (char_at s 3) - 48).
  intros d3 D3 d2 D2 d1 D1 d0 D0. clear Hdigits H0 H1 H2 H3.
  change (2 ^ 0) with 1. rewrite N.mul_1_r.
  unfold uint32.
  rewrite (N.mod_small (d0 * 2 ^ 24)) by lia.
  rewrite (N.mod_small (d1 * 2 ^ 16)) by lia.
  rewrite (N.mod_small (d2 * 2 ^ 8)) by lia.
  rewrite (N.mod_small d3) by lia.
  rewrite N.add_0_l.
  rewrite (N.mod_small (d0 * 2 ^ 24)) by lia.
  rewrite (N.mod_small (d0 * 2 ^ 24 + d1 * 2 ^ 16)) by lia.
  rewrite (N.mod_small (d0 * 2 ^ 24 + d1 * 2 ^ 16 + d2 * 2 ^ 8)) by lia.
  apply N.mod_small. lia.
Qed.

Lemma strtoul_digits_bytewise_witness :
  _strtoul "0012" 4 10 = 258.
Proof.
  rewrite (strtoul_digits_bytewise "0012" 10).
  - reflexivity.
  - discriminate.
  - intros [|[|[|[|i]]]] Hi; try lia; vm_compute; split; discriminate.
Defined.

End CodecMore.

(** ** Registry path, connection life cycle and key access of [smc.c] *)

Module SmcMore.

Import Smc Smc_codec IOKitFacts SmcFacts.
Local Open Scope string_scope.
Local Open Scope list_scope.
Local Open Scope N_scope.

Lemma collect_app {P A : Type} (pick : IOKit.Event P -> option A)
      (t1 t2 : list (IOKit.Event P)) :
  collect pick (t1 ++ t2) = collect pick t1 ++ collect pick t2.
Proof.
  induction t1 as [|e t1 IH]; [reflexivity|].
  cbn [collect app]. destruct (pick e); rewrite IH; reflexivity.
Qed.

Lemma closes_collect {P : Type} (t : list (IOKit.Event P)) :
  closes t = collect (fun e => match e with
                               | EvServiceClose conn _ => Some conn
                               | _ => None
                               end) t.
Proof.
  induction t as [|e t IH]; [reflexivity|].
  destruct e; cbn [closes collect]; rewrite IH; reflexivity.
Qed.

(** Projections of a trace that grew by a few events. *)
Ltac traces :=
  cbn [fst snd trace handle];
  unfold property_writes, releases, opens, call_targets;
  rewrite ?closes_collect, ?collect_app; cbn [collect];
  rewrite ?app_nil_r, <- ?app_assoc; cbn [app].

Section WithEnv.

Variable E : Env.

(** X6: the registry path. Without a battery service nothing is written
    and nothing released; with one, exactly one property write goes to it,
    it is released exactly once whatever the write answered, and the
    status is 0 exactly when the write succeeded. *)
Theorem set_battery_property_effects (key : string) (value : CFTypeRef)
        (w : World) :
  let service := env_get_matching_service E (trace w) "AppleSmartBattery" in
  let kr :=
    env_set_cf_property E
      (trace w ++ [EvGetMatchingService "AppleSmartBattery" service])
      service key value in
  let res := set_battery_property E key value w in
  (service = IO_OBJECT_NULL ->
   fst res = (-1)%Z
   /\ property_writes (trace (snd res)) = property_writes (trace w)
   /\ releases (trace (snd res)) = releases (trace w)) /\
  (service <> IO_OBJECT_NULL ->
   fst res = (if (kr =? KERN_SUCCESS)%Z then 0 else -1)%Z
   /\ property_writes (trace (snd res)) =
      property_writes (trace w) ++ [(service, key, value)]
   /\ releases (trace (snd res)) = releases (trace w) ++ [service]).
Proof.
  cbv zeta. unfold set_battery_property, get_battery_service. run.
  destruct (N.eqb_spec (env_get_matching_service E (trace w)
                          "AppleSmartBattery") IO_OBJECT_NULL)
    as [Hnull | Hsome].
  - split; [|intros H; contradiction]. intros _. traces. auto.
  - split; [intros H; contradiction|]. intros _.
    destruct (env_set_cf_property E _ _ key value =? KERN_SUCCESS)%Z;
      cbn [negb]; traces; auto.
Qed.

(** [smc_open] closes nothing. *)
Lemma smc_open_closes (w : World) :
  closes (trace (snd (smc_open E w))) = closes (trace w).
Proof.
  unfold smc_open. run.
  destruct (env_get_matching_service E (trace w) "AppleSMC"
            =? IO_OBJECT_NULL).
  - traces. reflexivity.
  - destruct (env_service_open E _ _ _) as [kr conn]. cbn [fst snd].
    destruct (kr =? KERN_SUCCESS)%Z; cbn [negb]; traces; reflexivity.
Qed.

(** X7: [smc_open]. Without a controller service nothing is opened and
    the handle is kept. With one, the handle becomes whatever
    [IOServiceOpen] stored, also when the open was refused; the service is
    released once; a handle that was open before is never closed. *)
Theorem smc_open_effects (w : World) :
  let service := env_get_matching_service E (trace w) "AppleSMC" in
  let r :=
    env_service_open E (trace w ++ [EvGetMatchingService "AppleSMC" service])
      service (g_smc_conn w) in
  let res := smc_open E w in
  closes (trace (snd res)) = closes (trace w) /\
  (service = IO_OBJECT_NULL ->
   fst res = (-1)%Z
   /\ g_smc_conn (snd res) = g_smc_conn w
   /\ opens (trace (snd res)) = opens (trace w)
   /\ releases (trace (snd res)) = releases (trace w)) /\
  (service <> IO_OBJECT_NULL ->
   fst res = (if (fst r =? KERN_SUCCESS)%Z then 0 else -1)%Z
   /\ g_smc_conn (snd res) = snd r
   /\ opens (trace (snd res)) = opens (trace w) ++ [service]
   /\ releases (trace (snd res)) = releases (trace w) ++ [service]).
Proof.
  cbv zeta. unfold smc_open. run.
  destruct (N.eqb_spec (env_get_matching_service E (trace w) "AppleSMC")
                       IO_OBJECT_NULL) as [Hnull | Hsome].
  - split; [traces; reflexivity|].
    split; [|intros H; contradiction]. intros _. traces. auto.
  - destruct (env_service_open E _ _ _) as [kr conn]. cbn [fst snd].
    destruct (kr =? KERN_SUCCESS)%Z; cbn [negb];
      (split; [traces; reflexivity|]);
      (split; [intros H; contradiction|]); intros _; traces; auto.
Qed.

(** X8: [smc_close] after [smc_open] releases exactly the handle that the
    open left, when it is not zero, and nothing else; the handle is zero
    afterwards. This holds whether or not the open succeeded. *)
Theorem smc_open_then_close (w : World) :
  let w1 := snd (smc_open E w) in
  let w2 := snd (smc_close E w1) in
  g_smc_conn w2 = 0 /\
  closes (trace w2) =
  closes (trace w) ++ (if g_smc_conn w1 =? 0 then [] else [g_smc_conn w1]).
Proof.
  cbv zeta. rewrite <- (smc_open_closes w).
  generalize (snd (smc_open E w)). intros w1.
  unfold smc_close. run.
  destruct (N.eqb_spec (g_smc_conn w1) 0) as [Hz | Hnz];
    cbn [negb snd handle trace].
  - rewrite app_nil_r. split; [exact Hz | reflexivity].
  - split; [reflexivity|]. rewrite closes_app. reflexivity.
Qed.

(** X9: a read returns 0 or -1, and a failed read leaves the caller's
    buffer and size as they were. *)
Theorem smc_read_key_failure_keeps_buffers (key : string) (out : list byte)
        (size0 : uint32_t) (w : World) :
  let res := fst (smc_read_key E key out size0 w) in
  (fst (fst res) = 0%Z \/ fst (fst res) = (-1)%Z) /\
  (fst (fst res) <> 0%Z -> res = ((-1)%Z, out, size0)).
Proof.
  cbv zeta. rewrite smc_read_key_eq. cbv zeta.
  destruct (fst (answer E w _) =? KERN_SUCCESS)%Z.
  - destruct (fst (answer E _ (read_request _ _)) =? KERN_SUCCESS)%Z;
      cbn [fst]; split; auto. intros H. contradiction.
  - cbn [fst]. split; auto.
Qed.

Lemma skipn_repeat_sub {A : Type} (a : A) (n m : nat) :
  skipn n (repeat a m) = repeat a (m - n).
Proof.
  revert m. induction n as [|n IH]; intros m.
  - rewrite Nat.sub_0_r. reflexivity.
  - destruct m as [|m]; [reflexivity|]. cbn [repeat skipn Nat.sub]. apply IH.
Qed.

(** The payload of a write request: the caller's first [min(size, 32)]
    bytes, then zeros, 32 bytes in all. *)
Lemma write_request_bytes (k : uint32_t) (info : SMCKeyInfoData)
      (bytes : list byte) (size : uint32_t) :
  let n := N.to_nat (N.min size 32) in
  (n <= List.length bytes)%nat ->
  Smc.bytes (write_request k info bytes size)
  = firstn n bytes ++ repeat x00 (32 - n)
  /\ List.length (Smc.bytes (write_request k info bytes size)) = 32%nat.
Proof.
  cbv zeta. intros Hlen. unfold write_request. cbv zeta.
  rewrite clamp32_min. cbn [Smc.bytes set_bytes]. unfold memcpy.
  assert (Hskip : skipn (N.to_nat (N.min size 32)) (repeat x00 32)
                  = repeat x00 (32 - N.to_nat (N.min size 32))).
  { apply skipn_repeat_sub. }
  rewrite Hskip. split; [reflexivity|].
  rewrite length_app, firstn_length_le, repeat_length by assumption. lia.
Qed.

(** X10: what [smc_write_key] sends and returns. After a successful
    key-info exchange it sends one write request carrying the key code,
    the key info just fetched and a 32-byte payload: the caller's first
    [min(size, 32)] bytes followed by zeros. It returns 0 exactly when
    both exchanges succeeded, and -1 otherwise. *)
Theorem smc_write_key_request (key : string) (bytes : list byte)
        (size : uint32_t) (w : World) :
  let k := four_char_code key in
  let a1 := answer E w (keyinfo_request k) in
  let req := write_request k (keyInfo (snd a1)) bytes size in
  let a2 := answer E (exchanged E w (keyinfo_request k)) req in
  let res := smc_write_key E key bytes size w in
  let n := N.to_nat (N.min size 32) in
  fst res =
    (if (fst a1 =? KERN_SUCCESS)%Z && (fst a2 =? KERN_SUCCESS)%Z
     then 0 else -1)%Z /\
  (fst a1 = KERN_SUCCESS ->
   struct_calls (trace (snd res)) =
   struct_calls (trace w) ++ [keyinfo_request k; req]) /\
  Smc.key req = k /\ data8 req = SMC_CMD_WRITE_BYTES /\
  keyInfo req = keyInfo (snd a1) /\
  ((n <= List.length bytes)%nat ->
   Smc.bytes req = firstn n bytes ++ repeat x00 (32 - n)
   /\ List.length (Smc.bytes req) = 32%nat).
Proof.
  cbv zeta. split; [|split].
  - rewrite smc_write_key_eq. cbv zeta.
    destruct (fst (answer E w _) =? KERN_SUCCESS)%Z; [|reflexivity].
    destruct (fst (answer E _ (write_request _ _ _ _)) =? KERN_SUCCESS)%Z;
      reflexivity.
  - intros Hok. rewrite (proj1 (smc_write_key_calls E key bytes size w)).
    rewrite Hok. reflexivity.
  - repeat split; try reflexivity; apply write_request_bytes; assumption.
Qed.

(** X11: neither a read nor a write looks at the handle before using it:
    each sends its one or two requests on the current handle, zero
    included, with selector [KERNEL_INDEX_SMC]. *)
Theorem key_access_uses_current_handle (key : string) (w : World) :
  (forall (out : list byte) (size0 : uint32_t),
      exists n : nat,
        (1 <= n <= 2)%nat /\
        call_targets (trace (snd (smc_read_key E key out size0 w))) =
        call_targets (trace w) ++ repeat (g_smc_conn w, KERNEL_INDEX_SMC) n)
  /\
  (forall (bytes : list byte) (size : uint32_t),
      exists n : nat,
        (1 <= n <= 2)%nat /\
        call_targets (trace (snd (smc_write_key E key bytes size w))) =
        call_targets (trace w) ++ repeat (g_smc_conn w, KERNEL_INDEX_SMC) n).
Proof.
  split.
  - intros out size0. rewrite smc_read_key_eq. cbv zeta.
    destruct (fst (answer E w _) =? KERN_SUCCESS)%Z.
    + exists 2%nat. split; [lia|].
      destruct (fst (answer E _ (read_request _ _)) =? KERN_SUCCESS)%Z;
        unfold exchanged; traces; reflexivity.
    + exists 1%nat. split; [lia|].
      unfold exchanged, fprintf, log; traces; reflexivity.
  - intros bytes size. rewrite smc_write_key_eq. cbv zeta.
    destruct (fst (answer E w _) =? KERN_SUCCESS)%Z.
    + exists 2%nat. split; [lia|].
      destruct (fst (answer E _ (write_request _ _ _ _)) =? KERN_SUCCESS)%Z;
        unfold exchanged, fprintf, log; traces; reflexivity.
    + exists 1%nat. split; [lia|].
      unfold exchanged, fprintf, log; traces; reflexivity.
Qed.

(** *** Operations that leave the connection alone *)

Lemma keeps_ret {A : Type} (a : A) :
  keeps_connection (P := SMCParamStruct) (ret a).
Proof. intros w. cbn. auto. Qed.

Lemma keeps_bind {A B : Type} (m : @M SMCParamStruct A)
      (k : A -> @M SMCParamStruct B) :
  keeps_connection m -> (forall a, keeps_connection (k a)) ->
  keeps_connection (bind m k).
Proof.
  intros Hm Hk w. rewrite bind_eq.
  destruct (Hm w) as (H1 & H2 & H3).
  destruct (Hk (fst (m w)) (snd (m w))) as (K1 & K2 & K3).
  rewrite K1, K2, K3. auto.
Qed.

Lemma keeps_get_handle : keeps_connection (P := SMCParamStruct) get_handle.
Proof. intros w. cbn. auto. Qed.

Lemma keeps_fprintf (stream : FILE) (format : string) (args : list fmt_arg) :
  keeps_connection (P := SMCParamStruct) (fprintf stream format args).
Proof. intros w. unfold fprintf, log. traces. auto. Qed.

Lemma keeps_release (obj : io_object_t) :
  keeps_connection (P := SMCParamStruct) (IOObjectRelease obj).
Proof. intros w. unfold IOObjectRelease, log. traces. auto. Qed.

Lemma keeps_lookup (name : string) :
  keeps_connection (IOServiceGetMatchingService E name).
Proof. intros w. run. traces. auto. Qed.

Lemma keeps_set_property (service : io_service_t) (key : string)
      (value : CFTypeRef) :
  keeps_connection (IORegistryEntrySetCFProperty E service key value).
Proof. intros w. run. traces. auto. Qed.

Lemma keeps_call (conn : io_connect_t) (selector : uint32_t)
      (input : SMCParamStruct) :
  keeps_connection (IOConnectCallStructMethod E conn selector input).
Proof.
  intros w. run. destruct (env_call_struct_method E _ _ _ _).
  traces. auto.
Qed.

(** Structural proof that a program built from the harmless primitives
    keeps the connection. *)
Ltac keeps :=
  repeat first
    [ apply keeps_ret
    | apply keeps_get_handle
    | apply keeps_fprintf
    | apply keeps_release
    | apply keeps_lookup
    | apply keeps_set_property
    | apply keeps_call
    | assumption
    | apply keeps_bind; [|intros ?]
    | match goal with
      | |- keeps_connection (if ?c then _ else _) => destruct c
      | |- keeps_connection (match ?x with (_, _) => _ end) => destruct x
      end ].

Lemma keeps_set_battery_property (key : string) (value : CFTypeRef) :
  keeps_connection (set_battery_property E key value).
Proof. unfold set_battery_property, get_battery_service. keeps. Qed.

Lemma keeps_smc_read_key_info (k : uint32_t) (info : SMCKeyInfoData) :
  keeps_connection (smc_read_key_info E k info).
Proof. unfold smc_read_key_info, smc_call. keeps. Qed.

Lemma keeps_smc_read_key (key : string) (out : list byte)
      (size0 : uint32_t) :
  keeps_connection (smc_read_key E key out size0).
Proof.
  unfold smc_read_key. cbv zeta.
  apply keeps_bind; [apply keeps_smc_read_key_info|]. intros [r info].
  unfold smc_call. keeps.
Qed.

Lemma keeps_smc_write_key (key : string) (bytes : list byte)
      (size : uint32_t) :
  keeps_connection (smc_write_key E key bytes size).
Proof.
  unfold smc_write_key. cbv zeta.
  apply keeps_bind; [apply keeps_smc_read_key_info|]. intros [r info].
  unfold smc_call. keeps.
Qed.

(** X12: none of the key and charging operations opens, closes or replaces
    the connection: the handle, and the lists of opened and closed
    connections, are the same before and after. *)
Theorem operations_keep_connection :
  (forall key out size0, keeps_connection (smc_read_key E key out size0)) /\
  (forall key bytes size, keeps_connection (smc_write_key E key bytes size)) /\
  keeps_connection (smc_disable_charging E) /\
  keeps_connection (smc_enable_charging E) /\
  (forall percentage, keeps_connection (smc_set_bclm E percentage)) /\
  (forall out, keeps_connection (smc_get_bclm E out)).
Proof.
  pose proof keeps_set_battery_property as Hprop.
  pose proof keeps_smc_write_key as Hwrite.
  pose proof keeps_smc_read_key as Hread.
  refine (conj _ (conj _ (conj _ (conj _ (conj _ _))))).
  - exact Hread.
  - exact Hwrite.
  - unfold smc_disable_charging. cbv zeta.
    repeat first [ apply keeps_ret | apply keeps_fprintf | apply Hprop
                 | apply Hwrite | apply keeps_bind; [|intros ?] ].
  - unfold smc_enable_charging. cbv zeta.
    repeat first [ apply keeps_ret | apply keeps_fprintf | apply Hprop
                 | apply Hwrite | apply keeps_bind; [|intros ?] ].
  - intros percentage. unfold smc_set_bclm. cbv zeta.
    apply keeps_bind; [apply Hprop|]. intros r.
    destruct (r =? 0)%Z; [apply keeps_ret | apply Hwrite].
  - intros out. unfold smc_get_bclm. cbv zeta.
    apply keeps_bind; [apply Hread|]. intros [[r o] sz]. apply keeps_ret.
Qed.

(** *** The charge limit *)

(** X13: [smc_get_bclm] stores [min(declared size, 32)] bytes through its
    pointer to one byte. With a declared size of 2 or more that is more
    than the caller's byte: the bytes after it are overwritten too. *)
Theorem smc_get_bclm_stores_declared_size (b : byte) (w : World) :
  let k := four_char_code "BCLM" in
  let a1 := answer E w (keyinfo_request k) in
  let w1 := exchanged E w (keyinfo_request k) in
  let a2 := answer E w1 (read_request k (keyInfo (snd a1))) in
  let declared := dataSize (keyInfo (snd a1)) in
  let n := N.to_nat (N.min declared 32) in
  let payload := Smc.bytes (snd a2) in
  fst a1 = KERN_SUCCESS -> fst a2 = KERN_SUCCESS ->
  List.length payload = 32%nat ->
  fst (smc_get_bclm E [b] w) = (0%Z, firstn n payload ++ skipn n [b]) /\
  (2 <= declared ->
   List.length (snd (fst (smc_get_bclm E [b] w))) = n /\ (1 < n)%nat).
Proof.
  cbv zeta. intros H1 H2 Hpay.
  assert (Hget : fst (smc_get_bclm E [b] w) =
                 (0%Z, memcpy [b]
                         (Smc.bytes (snd (answer E
                            (exchanged E w
                               (keyinfo_request (four_char_code "BCLM")))
                            (read_request (four_char_code "BCLM")
                               (keyInfo (snd (answer E w
                                  (keyinfo_request
                                     (four_char_code "BCLM")))))))))
                         (N.to_nat (N.min
                            (dataSize (keyInfo (snd (answer E w
                               (keyinfo_request (four_char_code "BCLM"))))))
                            32)))).
  { unfold smc_get_bclm. rewrite bind_eq. rewrite smc_read_key_eq.
    cbv zeta. rewrite H1, H2. reflexivity. }
  rewrite Hget. split; [reflexivity|].
  intros Hbig. cbn [fst snd]. unfold memcpy.
  set (n := N.to_nat (N.min _ 32)).
  assert (Hn : (2 <= n <= 32)%nat) by (subst n; lia).
  rewrite length_app, firstn_length_le by lia.
  rewrite length_skipn. cbn [List.length]. lia.
Qed.

Lemma smc_read_key_property_writes (key : string) (out : list byte)
      (size0 : uint32_t) (w : World) :
  property_writes (trace (snd (smc_read_key E key out size0 w)))
  = property_writes (trace w)
  /\ lookups (trace (snd (smc_read_key E key out size0 w)))
     = lookups (trace w).
Proof.
  rewrite smc_read_key_eq. cbv zeta.
  destruct (fst (answer E w _) =? KERN_SUCCESS)%Z.
  - destruct (fst (answer E _ (read_request _ _)) =? KERN_SUCCESS)%Z;
      unfold exchanged; traces; rewrite ?lookups_app; cbn [lookups];
      rewrite ?app_nil_r; auto.
  - unfold exchanged, fprintf, log; traces; rewrite ?lookups_app;
      cbn [lookups]; rewrite ?app_nil_r; auto.
Qed.

(** X14: [smc_get_bclm] only reads: it looks no service up, writes no
    registry property, and sends a key-info request followed, if that
    succeeded, by one read request, never a write. *)
Theorem smc_get_bclm_read_only (out : list byte) (w : World) :
  let a1 := answer E w (keyinfo_request (four_char_code "BCLM")) in
  let res := smc_get_bclm E out w in
  property_writes (trace (snd res)) = property_writes (trace w) /\
  lookups (trace (snd res)) = lookups (trace w) /\
  commands (trace (snd res)) =
  commands (trace w) ++
    SMC_CMD_READ_KEYINFO ::
    (if (fst a1 =? KERN_SUCCESS)%Z then [SMC_CMD_READ_BYTES] else []).
Proof.
  cbv zeta. unfold smc_get_bclm. rewrite bind_eq.
  destruct (smc_read_key_property_writes "BCLM" out 0 w) as [Hprop Hlook].
  pose proof (proj1 (smc_read_key_calls E "BCLM" out 0 w)) as Hcalls.
  cbv zeta in Hcalls.
  destruct (smc_read_key E "BCLM" out 0 w) as [[[r o] sz] w'].
  cbn [fst snd ret] in *. split; [exact Hprop|]. split; [exact Hlook|].
  unfold commands. rewrite Hcalls, map_app.
  destruct (fst (answer E w _) =? KERN_SUCCESS)%Z; reflexivity.
Qed.

Lemma smc_write_key_property_writes (key : string) (bytes : list byte)
      (size : uint32_t) (w : World) :
  property_writes (trace (snd (smc_write_key E key bytes size w)))
  = property_writes (trace w).
Proof.
  rewrite smc_write_key_eq. cbv zeta.
  destruct (fst (answer E w _) =? KERN_SUCCESS)%Z.
  - destruct (fst (answer E _ (write_request _ _ _ _)) =? KERN_SUCCESS)%Z;
      unfold exchanged, fprintf, log; traces; reflexivity.
  - unfold exchanged, fprintf, log; traces; reflexivity.
Qed.

(** What [set_battery_property] writes, by the outcome of the look-up. *)
Lemma set_battery_property_writes (key : string) (value : CFTypeRef)
      (w : World) :
  let service := env_get_matching_service E (trace w) "AppleSmartBattery" in
  property_writes (trace (snd (set_battery_property E key value w))) =
  property_writes (trace w) ++
    (if service =? IO_OBJECT_NULL then [] else [(service, key, value)]).
Proof.
  cbv zeta. unfold set_battery_property, get_battery_service. run.
  destruct (env_get_matching_service E (trace w) "AppleSmartBattery"
            =? IO_OBJECT_NULL).
  - traces. reflexivity.
  - destruct (env_set_cf_property E _ _ key value =? KERN_SUCCESS)%Z;
      cbn [negb]; traces; reflexivity.
Qed.

(** X15: [smc_set_bclm] checks nothing about the percentage: for every
    byte, 101 to 255 included, the registry write carries that very
    number. Without a battery service no property is written at all. *)
Theorem smc_set_bclm_forwards_any_byte (percentage : byte) (w : World) :
  let service := env_get_matching_service E (trace w) "AppleSmartBattery" in
  let value := CFNumberSInt32 (Z.of_N (Byte.to_N percentage)) in
  property_writes (trace (snd (smc_set_bclm E percentage w))) =
  property_writes (trace w) ++
    (if service =? IO_OBJECT_NULL then []
     else [(service, "ChargeCapacity", value)]).
Proof.
  cbv zeta. rewrite smc_set_bclm_eq. cbv zeta.
  pose proof (set_battery_property_writes "ChargeCapacity"
                (CFNumberSInt32 (Z.of_N (Byte.to_N percentage))) w) as Hw.
  cbv zeta in Hw.
  destruct (fst (set_battery_property E "ChargeCapacity" _ w) =? 0)%Z.
  - exact Hw.
  - rewrite smc_write_key_property_writes. exact Hw.
Qed.

(** *** Write, then read *)

(** The accepted write of a successful [smc_write_key] is the last one
    for its key in the trace, also after the key-info exchange of a read
    that follows. *)
Lemma smc_write_key_last_written (key : string) (bytes : list byte)
      (size : uint32_t) (w : World) :
  let k := four_char_code key in
  let w' := snd (smc_write_key E key bytes size w) in
  fst (smc_write_key E key bytes size w) = 0%Z ->
  Rig.last_written k (trace (exchanged E w' (keyinfo_request k))) =
  Some (Smc.bytes
          (write_request k (keyInfo (snd (answer E w (keyinfo_request k))))
             bytes size)).
Proof.
  cbv zeta. rewrite smc_write_key_eq. cbv zeta.
  destruct (fst (answer E w _) =? KERN_SUCCESS)%Z;
    [|cbn [fst]; discriminate].
  destruct (Z.eqb_spec
              (fst (answer E
                      (exchanged E w (keyinfo_request (four_char_code key)))
                      (write_request (four_char_code key)
                         (keyInfo (snd (answer E w
                            (keyinfo_request (four_char_code key)))))
                         bytes size)))
              KERN_SUCCESS) as [Hok | Hko];
    [|cbn [fst]; discriminate].
  intros _. cbn [snd fst exchanged trace fprintf log handle].
  unfold Rig.last_written. rewrite !fold_left_app. cbn [fold_left].
  rewrite Hok.
  change (data8 (write_request _ _ _ _) =? SMC_CMD_WRITE_BYTES) with true.
  change (Smc.key (write_request (four_char_code key) _ _ _))
    with (four_char_code key).
  change (data8 (keyinfo_request _) =? SMC_CMD_WRITE_BYTES) with false.
  cbn [andb Z.eqb KERN_SUCCESS]. rewrite N.eqb_refl. reflexivity.
Qed.

(** X16: a successful write followed by a read of the same key gives the
    written bytes back, when the sizes agree and the controller answers
    the read with the payload of the last write to that key it accepted,
    as the trace records it: the payload built by the write and the clamp
    of the read fit together. *)
Theorem smc_write_then_read (key : string) (bytes out : list byte)
        (size size0 : uint32_t) (w : World) :
  let k := four_char_code key in
  let wr := smc_write_key E key bytes size w in
  let w' := snd wr in
  let a1 := answer E w' (keyinfo_request k) in
  let w1 := exchanged E w' (keyinfo_request k) in
  let a2 := answer E w1 (read_request k (keyInfo (snd a1))) in
  size <= 32 -> List.length bytes = N.to_nat size ->
  fst wr = 0%Z ->
  fst a1 = KERN_SUCCESS -> dataSize (keyInfo (snd a1)) = size ->
  fst a2 = KERN_SUCCESS ->
  Rig.last_written k (trace w1) = Some (Smc.bytes (snd a2)) ->
  fst (smc_read_key E key out size0 w')
  = (0%Z, bytes ++ skipn (N.to_nat size) out, size).
Proof.
  cbv zeta. intros Hsize Hlen Hwrote H1 Hdecl H2 Hecho.
  rewrite (smc_write_key_last_written key bytes size w Hwrote) in Hecho.
  destruct (write_request_bytes (four_char_code key)
              (keyInfo (snd (answer E w
                 (keyinfo_request (four_char_code key)))))
              bytes size) as [Hpayload _].
  { rewrite N.min_l by assumption. lia. }
  rewrite Hpayload in Hecho. injection Hecho as Hecho.
  rewrite N.min_l in Hecho by assumption.
  rewrite (firstn_all2 bytes) in Hecho by lia.
  rewrite smc_read_key_eq. cbv zeta. rewrite H1, H2, Hdecl, <- Hecho.
  cbn [fst]. rewrite N.min_l by assumption.
  unfold memcpy. rewrite firstn_app. rewrite (firstn_all2 bytes) by lia.
  replace (N.to_nat size - List.length bytes)%nat with 0%nat by lia.
  cbn [firstn]. rewrite app_nil_r. reflexivity.
Qed.

(** *** Enabling charging *)

(** [smc_enable_charging] is its four attempts in a row and the
    disjunction of their outcomes. *)
Lemma smc_enable_charging_eq (w : World) :
  smc_enable_charging E w =
  (let '(r1, r2, r3, r4) := fst (enable_attempts E w) in
   if succeeded r1 || succeeded r2 || succeeded r3 || succeeded r4
   then 0%Z else (-1)%Z,
   snd (enable_attempts E w)).
Proof.
  unfold smc_enable_charging, enable_attempts, succeeded.
  cbv zeta. repeat (rewrite bind_eq; cbv beta). unfold ret. cbn [fst snd].
  f_equal.
  destruct (fst (set_battery_property E "ChargeInhibit" _ _) =? 0)%Z,
    (fst (set_battery_property E "ChargeRate" _ _) =? 0)%Z,
    (fst (smc_write_key E "CH0B" _ _ _) =? 0)%Z,
    (fst (smc_write_key E "CH0I" _ _ _) =? 0)%Z; reflexivity.
Qed.

Lemma enable_attempts_trace (w : World) :
  let w' := snd (enable_attempts E w) in
  lookups (trace w') =
    lookups (trace w) ++ ["AppleSmartBattery"; "AppleSmartBattery"] /\
  exists data_b data_i : list SMCParamStruct,
    struct_calls (trace w') =
    struct_calls (trace w) ++
      keyinfo_request (four_char_code "CH0B") :: data_b ++
      keyinfo_request (four_char_code "CH0I") :: data_i.
Proof.
  cbv zeta. unfold enable_attempts. cbn [snd]. split.
  - rewrite !smc_write_key_lookups.
    rewrite set_battery_property_lookups, set_battery_property_lookups.
    rewrite <- app_assoc. reflexivity.
  - eexists. eexists.
    rewrite (proj1 (smc_write_key_calls E "CH0I" _ _ _)).
    rewrite (proj1 (smc_write_key_calls E "CH0B" _ _ _)).
    rewrite (proj1 (set_battery_property_calls E "ChargeRate" _ _)).
    rewrite (proj1 (set_battery_property_calls E "ChargeInhibit" _ _)).
    rewrite <- app_assoc. cbn [app]. reflexivity.
Qed.

(** *** What the charging policy writes *)

Lemma fprintf_all_writes (stream : FILE) (format : string)
      (args : list fmt_arg) (w : World) :
  all_writes (trace (snd (fprintf stream format args w)))
  = all_writes (trace w).
Proof.
  unfold fprintf, log, all_writes. cbn [snd trace].
  rewrite collect_app. cbn [collect]. apply app_nil_r.
Qed.

(** A registry attempt adds at most one write, that of its property. *)
Lemma set_battery_property_all_writes (key : string) (value : CFTypeRef)
      (w : World) :
  exists (service : io_service_t) (found : bool),
    all_writes (trace (snd (set_battery_property E key value w))) =
    all_writes (trace w) ++
      (if found then [inl (service, key, value)] else []).
Proof.
  exists (env_get_matching_service E (trace w) "AppleSmartBattery").
  exists (negb (env_get_matching_service E (trace w) "AppleSmartBattery"
                =? IO_OBJECT_NULL)).
  unfold set_battery_property, get_battery_service. run.
  destruct (env_get_matching_service E (trace w) "AppleSmartBattery"
            =? IO_OBJECT_NULL); cbn [negb].
  - cbn [fst snd trace]. unfold all_writes. rewrite !collect_app.
    cbn [collect]. rewrite !app_nil_r. reflexivity.
  - destruct (env_set_cf_property E _ _ key value =? KERN_SUCCESS)%Z;
      cbn [negb fst snd trace]; unfold all_writes; rewrite !collect_app;
      cbn [collect]; rewrite ?app_nil_r, <- ?app_assoc; reflexivity.
Qed.

(** A write of one byte adds at most one write, of that byte to that
    key. *)
Lemma smc_write_key_all_writes (key : string) (b : byte) (w : World) :
  exists sent : bool,
    all_writes (trace (snd (smc_write_key E key [b] 1 w))) =
    all_writes (trace w) ++
      (if sent then [inr (four_char_code key, [b])] else []).
Proof.
  exists (fst (answer E w (keyinfo_request (four_char_code key)))
          =? KERN_SUCCESS)%Z.
  rewrite smc_write_key_eq. cbv zeta.
  destruct (fst (answer E w _) =? KERN_SUCCESS)%Z.
  - destruct (fst (answer E _ (write_request _ _ _ _)) =? KERN_SUCCESS)%Z;
      cbn [snd fst exchanged trace fprintf log]; unfold all_writes;
      rewrite !collect_app; cbn [collect];
      change (data8 (keyinfo_request (four_char_code key))
              =? SMC_CMD_WRITE_BYTES) with false;
      change (data8 (write_request (four_char_code key)
                       (keyInfo (snd (answer E w
                          (keyinfo_request (four_char_code key)))))
                       [b] 1) =? SMC_CMD_WRITE_BYTES) with true;
      cbv iota; rewrite ?app_nil_r, <- ?app_assoc; reflexivity.
  - cbn [snd fst exchanged trace fprintf log]; unfold all_writes;
      rewrite !collect_app; cbn [collect];
      change (data8 (keyinfo_request (four_char_code key))
              =? SMC_CMD_WRITE_BYTES) with false;
      cbv iota; rewrite ?app_nil_r; reflexivity.
Qed.

(** What four attempts in a row write, on one time line: two registry
    properties at most, then two keys at most. *)
Lemma attempts_all_writes (w0 : World) (v1 v2 : CFTypeRef) (b3 b4 : byte) :
  let a1 := set_battery_property E "ChargeInhibit" v1 w0 in
  let a2 := set_battery_property E "ChargeRate" v2 (snd a1) in
  forall w2 : World,
    all_writes (trace w2) = all_writes (trace (snd a2)) ->
    let a3 := smc_write_key E "CH0B" [b3] 1 w2 in
    let a4 := smc_write_key E "CH0I" [b4] 1 (snd a3) in
    exists (s1 s2 : io_service_t) (c1 c2 c3 c4 : bool),
      all_writes (trace (snd a4)) =
      all_writes (trace w0) ++
        (if c1 then [inl (s1, "ChargeInhibit", v1)] else []) ++
        (if c2 then [inl (s2, "ChargeRate", v2)] else []) ++
        (if c3 then [inr (four_char_code "CH0B", [b3])] else []) ++
        (if c4 then [inr (four_char_code "CH0I", [b4])] else []).
Proof.
  cbv zeta. intros w2 Hw.
  destruct (set_battery_property_all_writes "ChargeInhibit" v1 w0)
    as (s1 & c1 & P1).
  destruct (set_battery_property_all_writes "ChargeRate" v2
              (snd (set_battery_property E "ChargeInhibit" v1 w0)))
    as (s2 & c2 & P2).
  destruct (smc_write_key_all_writes "CH0B" b3 w2) as (c3 & W3).
  destruct (smc_write_key_all_writes "CH0I" b4
              (snd (smc_write_key E "CH0B" [b3] 1 w2))) as (c4 & W4).
  exists s1, s2, c1, c2, c3, c4.
  rewrite W4, W3, Hw, P2, P1, <- !app_assoc. reflexivity.
Qed.

(** X23: all that the charging policy ever writes, registry and
    controller on one time line. Disabling writes, in this order and each
    at most once, the properties inhibit = true and rate = 0 and then the
    bytes 0x02 to ["CH0B"] and 0x01 to ["CH0I"]; enabling writes
    inhibit = false, rate = -1 and then the byte 0 to both keys. Neither
    writes anything else. *)
Theorem charging_policy_writes (w : World) :
  (exists (s1 s2 : io_service_t) (c1 c2 c3 c4 : bool),
      all_writes (trace (snd (smc_disable_charging E w))) =
      all_writes (trace w) ++
        (if c1 then [inl (s1, "ChargeInhibit", kCFBooleanTrue)] else []) ++
        (if c2 then [inl (s2, "ChargeRate", CFNumberSInt32 0%Z)] else []) ++
        (if c3 then [inr (four_char_code "CH0B", [x02])] else []) ++
        (if c4 then [inr (four_char_code "CH0I", [x01])] else [])) /\
  (exists (s1 s2 : io_service_t) (c1 c2 c3 c4 : bool),
      all_writes (trace (snd (smc_enable_charging E w))) =
      all_writes (trace w) ++
        (if c1 then [inl (s1, "ChargeInhibit", kCFBooleanFalse)] else []) ++
        (if c2 then [inl (s2, "ChargeRate", CFNumberSInt32 (-1)%Z)]
         else []) ++
        (if c3 then [inr (four_char_code "CH0B", [x00])] else []) ++
        (if c4 then [inr (four_char_code "CH0I", [x00])] else [])).
Proof.
  split.
  - rewrite smc_disable_charging_eq. cbn [snd]. unfold disable_attempts.
    cbv zeta. cbn [snd].
    rewrite <- (fprintf_all_writes stdout
                  "Trying IORegistry ChargeInhibit...\n" [] w).
    apply attempts_all_writes. apply fprintf_all_writes.
  - rewrite smc_enable_charging_eq. cbn [snd]. unfold enable_attempts.
    cbv zeta. cbn [snd].
    apply attempts_all_writes. reflexivity.
Qed.

End WithEnv.

(** X17: [smc_enable_charging] runs its four attempts in order whatever
    their outcomes and succeeds exactly when one of them did. On the
    sixteen rigs it asks the registry for inhibit = false and rate = -1
    and writes the byte 0 to the keys that accept a write. *)
Theorem smc_enable_charging_any_success :
  (forall (E : Env) (w : World),
      smc_enable_charging E w =
      (let '(r1, r2, r3, r4) := fst (enable_attempts E w) in
       if succeeded r1 || succeeded r2 || succeeded r3 || succeeded r4
       then 0%Z else (-1)%Z,
       snd (enable_attempts E w))
      /\ lookups (trace (snd (smc_enable_charging E w))) =
         lookups (trace w) ++ ["AppleSmartBattery"; "AppleSmartBattery"]
      /\ exists data_b data_i : list SMCParamStruct,
          struct_calls (trace (snd (smc_enable_charging E w))) =
          struct_calls (trace w) ++
            keyinfo_request (four_char_code "CH0B") :: data_b ++
            keyinfo_request (four_char_code "CH0I") :: data_i) /\
  (forall b1 b2 b3 b4 : bool,
      let E := Rig.rig_env (Rig.rig4 b1 b2 b3 b4) in
      let w := Rig.opened (Rig.rig4 b1 b2 b3 b4) in
      let status (b : bool) := if b then 0%Z else (-1)%Z in
      let res := smc_enable_charging E w in
      fst (enable_attempts E w) = (status b1, status b2, status b3, status b4)
      /\ fst res = status (b1 || b2 || b3 || b4)
      /\ property_writes (trace (snd res)) =
         [(7, "ChargeInhibit", kCFBooleanFalse);
          (7, "ChargeRate", CFNumberSInt32 (-1)%Z)]
      /\ written (trace (snd res)) =
         (if b3 then [(four_char_code "CH0B", [x00])] else []) ++
         (if b4 then [(four_char_code "CH0I", [x00])] else [])).
Proof.
  split.
  - intros E w. rewrite smc_enable_charging_eq. split; [reflexivity|].
    cbn [snd]. apply enable_attempts_trace.
  - intros b1 b2 b3 b4. cbv zeta. rewrite smc_enable_charging_eq.
    destruct b1, b2, b3, b4; vm_compute; repeat split; reflexivity.
Qed.

(** *** The theorems at work on the rigs *)

Lemma set_battery_property_effects_witness :
  fst (set_battery_property (Rig.rig_env Rig.rig_bare) "ChargeRate"
         (CFNumberSInt32 0%Z) Rig.boot) = (-1)%Z
  /\ releases (trace (snd (set_battery_property
                             (Rig.rig_env (Rig.rig_registry 1 Rig.ramp))
                             "ChargeRate" (CFNumberSInt32 0%Z) Rig.boot)))
     = [7].
Proof.
  split.
  - apply (proj1 (set_battery_property_effects (Rig.rig_env Rig.rig_bare)
                    "ChargeRate" (CFNumberSInt32 0%Z) Rig.boot)).
    reflexivity.
  - destruct (proj2 (set_battery_property_effects
                       (Rig.rig_env (Rig.rig_registry 1 Rig.ramp))
                       "ChargeRate" (CFNumberSInt32 0%Z) Rig.boot))
      as (_ & _ & Hrel).
    + vm_compute. discriminate.
    + exact Hrel.
Defined.

Lemma smc_open_effects_witness :
  (fst (smc_open (Rig.rig_env Rig.rig_bare) Rig.boot) = (-1)%Z
   /\ g_smc_conn (snd (smc_open (Rig.rig_env Rig.rig_bare) Rig.boot)) = 0)
  /\ (fst (smc_open Rig.refusing_env Rig.boot) = (-1)%Z
      /\ g_smc_conn (snd (smc_open Rig.refusing_env Rig.boot)) = 5).
Proof.
  split.
  - destruct (smc_open_effects (Rig.rig_env Rig.rig_bare) Rig.boot)
      as (_ & Hnone & _).
    destruct (Hnone eq_refl) as (Hret & Hconn & _). split; assumption.
  - destruct (smc_open_effects Rig.refusing_env Rig.boot) as (_ & _ & Hsome).
    destruct Hsome as (Hret & Hconn & _); [vm_compute; discriminate|].
    split; assumption.
Defined.

Lemma smc_read_key_failure_keeps_buffers_witness :
  fst (fst (fst (smc_read_key (Rig.rig_env Rig.rig_dead) "BCLM" [xff] 7
                   (Rig.opened Rig.rig_dead)))) <> 0%Z
  /\ fst (smc_read_key (Rig.rig_env Rig.rig_dead) "BCLM" [xff] 7
            (Rig.opened Rig.rig_dead)) = ((-1)%Z, [xff], 7).
Proof.
  assert (Hko : fst (fst (fst (smc_read_key (Rig.rig_env Rig.rig_dead) "BCLM"
                                 [xff] 7 (Rig.opened Rig.rig_dead))))
                <> 0%Z) by (vm_compute; discriminate).
  split; [exact Hko|].
  exact (proj2 (smc_read_key_failure_keeps_buffers (Rig.rig_env Rig.rig_dead)
                  "BCLM" [xff] 7 (Rig.opened Rig.rig_dead)) Hko).
Defined.

Lemma smc_write_key_request_witness :
  let r := Rig.rig_smc_only 1 Rig.ramp in
  Smc.bytes (write_request (four_char_code "BCLM")
               (keyInfo (snd (answer (Rig.rig_env r) (Rig.opened r)
                  (keyinfo_request (four_char_code "BCLM")))))
               [x32] 1)
  = x32 :: repeat x00 31.
Proof.
  cbv zeta.
  destruct (smc_write_key_request
              (Rig.rig_env (Rig.rig_smc_only 1 Rig.ramp)) "BCLM" [x32] 1
              (Rig.opened (Rig.rig_smc_only 1 Rig.ramp)))
    as (_ & _ & _ & _ & _ & Hbytes).
  destruct Hbytes as [Hb _]; [cbn; lia|]. exact Hb.
Defined.

Lemma smc_get_bclm_stores_declared_size_witness :
  let r := Rig.rig_smc_only 3 Rig.ramp in
  fst (smc_get_bclm (Rig.rig_env r) [xff] (Rig.opened r))
  = (0%Z, [x01; x02; x03]).
Proof.
  cbv zeta.
  destruct (smc_get_bclm_stores_declared_size
              (Rig.rig_env (Rig.rig_smc_only 3 Rig.ramp)) xff
              (Rig.opened (Rig.rig_smc_only 3 Rig.ramp))
              eq_refl eq_refl eq_refl) as [Hget _].
  exact Hget.
Defined.

Lemma smc_write_then_read_witness :
  let E := Rig.store_env (fun _ => 2) in
  let w' := snd (smc_write_key E "CH0B" [xaa; xbb] 2 Rig.boot) in
  fst (smc_read_key E "CH0B" [x00; x00; xff] 0 w')
  = (0%Z, [xaa; xbb; xff], 2).
Proof.
  cbv zeta.
  apply (smc_write_then_read (Rig.store_env (fun _ => 2)) "CH0B"
           [xaa; xbb] [x00; x00; xff] 2 0 Rig.boot);
    solve [ reflexivity | vm_compute; discriminate ].
Defined.

End SmcMore.

(** ** The diagnostic tool [smc_tool.c] *)

Module SmcToolMore.

Import SmcTool Tool_codec IOKitFacts.
Local Open Scope string_scope.
Local Open Scope list_scope.
Local Open Scope N_scope.

Ltac tool_traces :=
  cbn [fst snd trace handle];
  unfold tool_commands, printed;
  rewrite ?SmcMore.closes_collect, ?struct_calls_app, ?SmcMore.collect_app;
  cbn [collect struct_calls map];
  rewrite ?app_nil_r, ?map_app, <- ?app_assoc; cbn [app map].

Section WithEnv.

Variable E : SmcTool.Env.

Lemma SMCCall_commands (request : SMCKeyData_t) (w : SmcTool.World) :
  tool_commands (trace (snd (SMCCall E request w)))
  = tool_commands (trace w) ++ [data8 request].
Proof.
  unfold SMCCall, IOConnectCallStructMethod, history, get_handle, log.
  repeat (rewrite bind_eq; cbv beta). cbn [fst snd ret trace handle].
  unfold tool_commands. rewrite struct_calls_app, map_app. reflexivity.
Qed.

Lemma SMCCall_calls (request : SMCKeyData_t) (w : SmcTool.World) :
  struct_calls (trace (snd (SMCCall E request w)))
  = struct_calls (trace w) ++ [request].
Proof.
  unfold SMCCall, IOConnectCallStructMethod, history, get_handle, log.
  repeat (rewrite bind_eq; cbv beta). cbn [fst snd ret trace handle].
  rewrite struct_calls_app. reflexivity.
Qed.

(** [SMCReadKey], one exchange at a time. *)
Lemma SMCReadKey_eq (key : UInt32Char_t) (w : SmcTool.World) :
  SMCReadKey E key w =
  let c1 := SMCCall E (tool_keyinfo_request key) w in
  let val0 :=
    {| val_key := snprintf_s 5 key; val_dataSize := 0; val_dataType := "";
       val_bytes := repeat x00 32 |} in
  if (fst (fst c1) =? kIOReturnSuccess)%Z then
    let o1 := snd (fst c1) in
    let val1 :=
      {| val_key := snprintf_s 5 key;
         val_dataSize := dataSize (keyInfo o1);
         val_dataType := _ultostr (dataType (keyInfo o1));
         val_bytes := repeat x00 32 |} in
    let c2 :=
      SMCCall E (tool_read_request key (dataSize (keyInfo o1))) (snd c1) in
    if (fst (fst c2) =? kIOReturnSuccess)%Z then
      ((kIOReturnSuccess,
        {| val_key := snprintf_s 5 key;
           val_dataSize := dataSize (keyInfo o1);
           val_dataType := _ultostr (dataType (keyInfo o1));
           val_bytes := memcpy (repeat x00 32) (bytes (snd (fst c2))) 32 |}),
       snd c2)
    else ((fst (fst c2), val1), snd c2)
  else ((fst (fst c1), val0), snd c1).
Proof.
  unfold SMCReadKey. cbv zeta. rewrite bind_eq.
  fold (tool_keyinfo_request key).
  destruct (SMCCall E (tool_keyinfo_request key) w) as [[kr1 o1] w1].
  cbn [fst snd]. destruct (kr1 =? kIOReturnSuccess)%Z; cbn [negb];
    [|reflexivity].
  rewrite bind_eq.
  change (tool_set_data8 SMC_CMD_READ_BYTES _)
    with (tool_read_request key (dataSize (keyInfo o1))).
  destruct (SMCCall E (tool_read_request key _) w1) as [[kr2 o2] w2].
  cbn [fst snd]. destruct (kr2 =? kIOReturnSuccess)%Z; reflexivity.
Qed.

Lemma length_substring0_le (n : nat) (s : string) :
  (String.length (substring 0 n s) <= n)%nat.
Proof.
  revert s. induction n as [|n IH]; intros s.
  - destruct s; cbn; lia.
  - destruct s as [|c s]; cbn [substring String.length]; [lia|].
    specialize (IH s). lia.
Qed.

(** X18: [SMCReadKey] does not clamp. After two successful exchanges it
    reports the declared size as the controller gave it, above 32 too,
    and copies all 32 payload bytes whatever that size; the type tag is
    decoded by [_ultostr] and the key is cut to four characters. *)
Theorem SMCReadKey_success (key : UInt32Char_t) (w w1 w2 : SmcTool.World)
        (o1 o2 : SMCKeyData_t) :
  SMCCall E (tool_keyinfo_request key) w = ((kIOReturnSuccess, o1), w1) ->
  SMCCall E (tool_read_request key (dataSize (keyInfo o1))) w1
  = ((kIOReturnSuccess, o2), w2) ->
  List.length (bytes o2) = 32%nat ->
  SMCReadKey E key w =
  ((kIOReturnSuccess,
    {| val_key := snprintf_s 5 key;
       val_dataSize := dataSize (keyInfo o1);
       val_dataType := _ultostr (dataType (keyInfo o1));
       val_bytes := bytes o2 |}), w2)
  /\ (String.length (snprintf_s 5 key) <= 4)%nat.
Proof.
  intros H1 H2 Hlen. rewrite SMCReadKey_eq. cbv zeta.
  rewrite H1. cbn [fst snd]. rewrite H2. cbn [fst snd].
  cbn [Z.eqb kIOReturnSuccess]. unfold memcpy.
  rewrite <- Hlen at 1. rewrite firstn_all.
  replace (skipn 32 (repeat x00 32)) with (@nil byte) by reflexivity.
  rewrite app_nil_r. split; [reflexivity|].
  unfold snprintf_s.
  pose proof (length_substring0_le (Nat.min (5 - 1) (strlen key)) key).
  lia.
Qed.

(** X19: a failed exchange ends [SMCReadKey] with the status of that
    exchange. When the key-info exchange fails no read request is sent
    and the value is all zero but for its key. *)
Theorem SMCReadKey_failure (key : UInt32Char_t) (w : SmcTool.World) :
  let c1 := SMCCall E (tool_keyinfo_request key) w in
  let res := SMCReadKey E key w in
  fst (fst c1) <> kIOReturnSuccess ->
  fst res =
    (fst (fst c1),
     {| val_key := snprintf_s 5 key; val_dataSize := 0; val_dataType := "";
        val_bytes := repeat x00 32 |})
  /\ tool_commands (trace (snd res))
     = tool_commands (trace w) ++ [SMC_CMD_READ_KEYINFO].
Proof.
  cbv zeta. intros Hko. rewrite SMCReadKey_eq. cbv zeta.
  destruct (Z.eqb_spec (fst (fst (SMCCall E (tool_keyinfo_request key) w)))
                       kIOReturnSuccess) as [Hok | _]; [contradiction|].
  cbn [fst snd]. split; [reflexivity|]. apply SMCCall_commands.
Qed.

(** X20: the three ways [SMCWriteKey] ends. A failed read is returned as
    it is and nothing more is sent; a size mismatch gives [kIOReturnError]
    and nothing more is sent; otherwise exactly one write request goes
    out, with the encoded key, the caller's size and the caller's 32
    bytes, and its status is the result. *)
Theorem SMCWriteKey_outcomes (writeVal : SMCVal_t) (w : SmcTool.World) :
  let rd := SMCReadKey E (val_key writeVal) w in
  let readVal := snd (fst rd) in
  let req := tool_write_request writeVal in
  let res := SMCWriteKey E writeVal w in
  (fst (fst rd) <> kIOReturnSuccess -> res = (fst (fst rd), snd rd)) /\
  (fst (fst rd) = kIOReturnSuccess ->
   val_dataSize readVal <> val_dataSize writeVal ->
   fst res = kIOReturnError
   /\ struct_calls (trace (snd res)) = struct_calls (trace (snd rd))) /\
  (fst (fst rd) = kIOReturnSuccess ->
   val_dataSize readVal = val_dataSize writeVal ->
   fst res = fst (fst (SMCCall E req (snd rd)))
   /\ struct_calls (trace (snd res)) =
      struct_calls (trace (snd rd)) ++ [req]) /\
  key req = _strtoul (val_key writeVal) 4 16 /\
  data8 req = SMC_CMD_WRITE_BYTES /\
  dataSize (keyInfo req) = val_dataSize writeVal /\
  (List.length (val_bytes writeVal) = 32%nat ->
   bytes req = val_bytes writeVal).
Proof.
  cbv zeta. unfold SMCWriteKey. rewrite bind_eq.
  destruct (SMCReadKey E (val_key writeVal) w) as [[kr readVal] w1].
  cbn [fst snd].
  refine (conj _ (conj _ (conj _ (conj _ (conj _ (conj _ _)))))).
  - intros Hko. destruct (Z.eqb_spec kr kIOReturnSuccess) as [Hok | _];
      [contradiction|]. reflexivity.
  - intros Hok Hsize. rewrite Hok. cbn [Z.eqb kIOReturnSuccess negb].
    destruct (N.eqb_spec (val_dataSize readVal) (val_dataSize writeVal))
      as [Heq | _]; [contradiction|].
    cbn [negb]. rewrite bind_eq. cbn [fprintf log ret fst snd trace].
    split; [reflexivity|].
    rewrite struct_calls_app. cbn [struct_calls]. apply app_nil_r.
  - intros Hok Hsize. rewrite Hok. cbn [Z.eqb kIOReturnSuccess negb].
    rewrite Hsize, N.eqb_refl. cbn [negb]. cbv zeta.
    rewrite bind_eq.
    change (tool_set_bytes _ _) with (tool_write_request writeVal).
    pose proof (SMCCall_calls (tool_write_request writeVal) w1) as Hcalls.
    destruct (SMCCall E (tool_write_request writeVal) w1) as [[kr2 o2] w2].
    cbn [fst snd] in *. rewrite bind_eq. cbn [ret fst snd].
    split; [reflexivity|]. rewrite <- Hcalls.
    destruct (negb _); cbn [fprintf log ret snd trace];
      rewrite ?struct_calls_app; cbn [struct_calls];
      rewrite ?app_nil_r; reflexivity.
  - reflexivity.
  - reflexivity.
  - reflexivity.
  - intros Hlen. unfold tool_write_request. cbn [bytes tool_set_bytes].
    unfold memcpy. rewrite <- Hlen at 1. rewrite firstn_all.
    replace (skipn 32 (repeat x00 32)) with (@nil byte) by reflexivity.
    apply app_nil_r.
Qed.

(** X21: [SMCClose] hands the handle to [IOServiceClose] each time it is
    called, zero included, and keeps it: two closes release the same
    handle twice. *)
Theorem SMCClose_releases_every_time (w : SmcTool.World) :
  let w1 := snd (SMCClose E w) in
  let w2 := snd (SMCClose E w1) in
  g_conn w1 = g_conn w /\
  closes (trace w1) = closes (trace w) ++ [g_conn w] /\
  closes (trace w2) = closes (trace w) ++ [g_conn w; g_conn w].
Proof.
  cbv zeta. unfold SMCClose, IOServiceClose, history, get_handle, log.
  repeat (rewrite bind_eq; cbv beta). cbn [fst snd ret trace handle].
  rewrite !closes_app. cbn [closes]. rewrite <- app_assoc. auto.
Qed.

(** What the byte loop of [printVal] prints. *)
Lemma printVal_loop_printed (bytes : SMCBytes_t) (fuel i : nat)
      (w : SmcTool.World) :
  (i + fuel <= List.length bytes)%nat ->
  printed stdout (trace (snd (printVal_loop bytes fuel i w))) =
  printed stdout (trace w) ++
    map (fun b => (" %02x", [ArgX (Byte.to_N b)]))
        (firstn fuel (skipn i bytes))
  /\ printed stderr (trace (snd (printVal_loop bytes fuel i w)))
     = printed stderr (trace w).
Proof.
  revert i w. induction fuel as [|fuel IH]; intros i w Hlen.
  - cbn [printVal_loop ret snd firstn map]. rewrite app_nil_r. auto.
  - cbn [printVal_loop]. rewrite bind_eq.
    destruct (IH (S i) (snd (fprintf stdout " %02x"
                               [ArgX (Byte.to_N (nth i bytes x00))] w)))
      as [Hout Herr]; [lia|].
    rewrite Hout, Herr. cbn [fprintf log snd trace].
    unfold printed. rewrite !SmcMore.collect_app. cbn [collect].
    rewrite app_nil_r. split; [|reflexivity].
    rewrite <- app_assoc. f_equal. cbn [app].
    assert (Hsplit : skipn i bytes = nth i bytes x00 :: skipn (S i) bytes).
    { clear - Hlen. revert i Hlen.
      induction bytes as [|b bytes IHb]; intros i Hlen; cbn in Hlen; [lia|].
      destruct i as [|i]; [reflexivity|].
      cbn [skipn nth]. apply IHb. lia. }
    rewrite Hsplit. reflexivity.
Qed.

(** X22: [printVal] prints the key and the type tag, then ["no data"] for
    a size of 0 and otherwise the first [dataSize] bytes of the value, one
    [%02x] each and in order, between ["(bytes"] and [")"]; nothing goes
    to [stderr]. The size must not exceed the 32 bytes of the array. *)
Theorem printVal_output (val : SMCVal_t) (w : SmcTool.World) :
  (N.to_nat (val_dataSize val) <= List.length (val_bytes val))%nat ->
  printed stdout (trace (snd (printVal val w))) =
  printed stdout (trace w) ++
    ("  %-4s  [%-4s]  ", [ArgS (val_key val); ArgS (val_dataType val)]) ::
    (if val_dataSize val =? 0 then [("no data\n", [])]
     else ("(bytes", []) ::
          map (fun b => (" %02x", [ArgX (Byte.to_N b)]))
              (firstn (N.to_nat (val_dataSize val)) (val_bytes val)) ++
          [(")\n", [])])
  /\ printed stderr (trace (snd (printVal val w)))
     = printed stderr (trace w).
Proof.
  intros Hlen. unfold printVal. rewrite bind_eq.
  destruct (N.eqb_spec (val_dataSize val) 0) as [Hz | Hnz].
  - rewrite Hz. cbn [N.ltb N.compare]. cbn [fprintf log snd trace].
    unfold printed. rewrite !SmcMore.collect_app. cbn [collect].
    rewrite !app_nil_r, <- app_assoc. auto.
  - destruct (N.ltb_spec 0 (val_dataSize val)) as [_ | Hle]; [|lia].
    repeat (rewrite bind_eq; cbv beta).
    set (w1 := snd (fprintf stdout "(bytes" []
                      (snd (fprintf stdout "  %-4s  [%-4s]  "
                              [ArgS (val_key val); ArgS (val_dataType val)]
                              w)))).
    destruct (printVal_loop_printed (val_bytes val)
                (N.to_nat (val_dataSize val)) 0 w1) as [Hout Herr];
      [lia|].
    cbn [fprintf log snd trace] in *.
    unfold printed in *. rewrite !SmcMore.collect_app. cbn [collect].
    rewrite Hout, Herr. subst w1. cbn [snd trace].
    rewrite !SmcMore.collect_app. cbn [collect skipn].
    rewrite !app_nil_r, <- !app_assoc. cbn [app]. auto.
Qed.

End WithEnv.

(** *** The theorems at work on the rigs *)

Lemma SMCReadKey_success_witness :
  let res := fst (SMCReadKey (ToolRig.tool_env 40 Rig.ramp) "BCLM"
                    ToolRig.tool_opened) in
  val_dataSize (snd res) = 40 /\ val_bytes (snd res) = Rig.ramp.
Proof.
  cbv zeta.
  destruct (SMCReadKey_success (ToolRig.tool_env 40 Rig.ramp) "BCLM"
              ToolRig.tool_opened _ _ _ _ eq_refl eq_refl eq_refl)
    as [Hread _].
  rewrite Hread. split; reflexivity.
Defined.

Lemma SMCReadKey_failure_witness :
  tool_commands (trace (snd (SMCReadKey ToolRig.tool_env_dead "BCLM"
                               ToolRig.tool_opened)))
  = [SMC_CMD_READ_KEYINFO].
Proof.
  destruct (SMCReadKey_failure ToolRig.tool_env_dead "BCLM"
              ToolRig.tool_opened) as [_ Hcmds].
  - vm_compute. discriminate.
  - exact Hcmds.
Defined.

Lemma SMCWriteKey_outcomes_witness :
  fst (SMCWriteKey ToolRig.tool_env_dead ToolRig.one_byte ToolRig.tool_opened)
  = kIOReturnError
  /\ fst (SMCWriteKey (ToolRig.tool_env 1 Rig.ramp) ToolRig.two_bytes
            ToolRig.tool_opened) = kIOReturnError
  /\ fst (SMCWriteKey (ToolRig.tool_env 1 Rig.ramp) ToolRig.one_byte
            ToolRig.tool_opened) = kIOReturnSuccess
  /\ bytes (tool_write_request ToolRig.one_byte) = x32 :: repeat x00 31.
Proof.
  split; [|split; [|split]].
  - destruct (SMCWriteKey_outcomes ToolRig.tool_env_dead ToolRig.one_byte
                ToolRig.tool_opened) as (Hfail & _).
    rewrite Hfail; [reflexivity | vm_compute; discriminate].
  - destruct (SMCWriteKey_outcomes (ToolRig.tool_env 1 Rig.ramp)
                ToolRig.two_bytes ToolRig.tool_opened) as (_ & Hmis & _).
    apply Hmis; [reflexivity | vm_compute; discriminate].
  - destruct (SMCWriteKey_outcomes (ToolRig.tool_env 1 Rig.ramp)
                ToolRig.one_byte ToolRig.tool_opened) as (_ & _ & Hok & _).
    destruct Hok as [Hret _]; [reflexivity | reflexivity |].
    rewrite Hret. reflexivity.
  - destruct (SMCWriteKey_outcomes (ToolRig.tool_env 1 Rig.ramp)
                ToolRig.one_byte ToolRig.tool_opened)
      as (_ & _ & _ & _ & _ & _ & Hbytes).
    apply Hbytes. reflexivity.
Defined.

Lemma printVal_output_witness :
  printed stdout (trace (snd (printVal ToolRig.two_bytes ToolRig.tool_opened)))
  = [("  %-4s  [%-4s]  ", [ArgS "BCLM"; ArgS ""]);
     ("(bytes", []);
     (" %02x", [ArgX 0x32]);
     (" %02x", [ArgX 0]);
     (")\n", [])].
Proof.
  destruct (printVal_output ToolRig.two_bytes ToolRig.tool_opened)
    as [Hout _].
  - cbn. lia.
  - rewrite Hout. reflexivity.
Defined.

End SmcToolMore.
